(** * Conversion generator: a shallow embedding of pkg/generator/generator.go

    The development follows the Go source function by function.  The code
    generator writes snippets into a [SnippetWriter], logs through [klog] and
    keeps a cache of peer types; all three are threaded explicitly as one
    state, [GenState], through a small state monad [Gen].

    Conventions.
    - String literals are the literals of the Go source, escape sequences
      kept as they are written there (a backslash followed by [n], not a
      line feed).
    - A [*types.Type] that the source may pass as [nil] is an [option Ty].
      Dereferencing [nil] makes Go panic; the model answers with the outcome
      [NilDereference].
    - Go compares [*types.Type] values by address.  Every [Ty] carries the
      address it lives at, see [Addr]. *)

From stdpp Require Import base option strings gmap list.
From Stdlib Require Import String Ascii.

Set Warnings "-register-all".
Set Default Proof Using "Type".
Open Scope string_scope.

(** ** The type graph of gengo ([k8s.io/gengo/types]) *)

Module types.

(** [types.Kind]: the constants gengo declares. *)
Inductive Kind : Set :=
| Builtin | Struct | Map | Pointer | Slice | Interface | Alias
| DeclarationOf | Unknown | Unsupported | Protobuf | Func | Array | Chan
| TypeParam.

(** Where a [Type] value lives.  The universe interns its types, so each
    has an address of its own; [doStruct] makes two local copies per
    member, one for the source side and one for the target side, whose
    addresses are fresh. *)
Inductive Addr : Set :=
| Interned (n : nat)
| CopiedIn
| CopiedOut.

(** [types.Name] *)
Record Name : Set := mkName {
  N_Package : string;
  N_Name : string;
  N_Path : string
}.

(** [types.Type] and [types.Member], with the fields the generator reads. *)
Inductive Ty : Type := mkType {
  T_Addr : Addr;
  T_Name : Name;
  T_Kind : Kind;
  T_CommentLines : list string;
  T_Members : list Member;
  T_Elem : option Ty;
  T_Key : option Ty;
  T_Underlying : option Ty
}
with Member : Type := mkMember {
  M_Name : string;
  M_Embedded : bool;
  M_CommentLines : list string;
  M_Tags : string;
  M_Type : Ty
}.

(** [types.Package] *)
Record Package : Type := mkPackage {
  P_Path : string;
  P_Comments : list string;
  P_Types : gmap string Ty
}.

(** [func (p *Package) Has(name string) bool] *)
Definition Has (p : Package) (name : string) : bool :=
  bool_decide (is_Some (P_Types p !! name)).

(** [types.Universe], a map from package paths to packages. *)
Definition Universe : Type := gmap string Package.

End types.
Export types.

#[global] Instance Kind_eq_dec : EqDecision Kind.
Proof. solve_decision. Defined.

#[global] Instance Addr_eq_dec : EqDecision Addr.
Proof. solve_decision. Defined.

(** [a == b] on two [*types.Type] that are not nil. *)
Definition same_type (a b : Ty) : bool :=
  bool_decide (T_Addr a = T_Addr b).

(** [a == b] on two [*types.Type] that may be nil. *)
Definition same_pointer (a b : option Ty) : bool :=
  match a, b with
  | Some x, Some y => same_type x y
  | None, None => true
  | _, _ => false
  end.

(** [generator.Context], of which the generator reads the universe only. *)
Record Context : Type := mkContext {
  C_Universe : Universe
}.

(** ** What the generator writes *)

(** Go's [error] values, identified with their message. *)
Definition error : Set := string.

(** The values a template argument map holds. *)
Inductive ArgValue : Type :=
| AType (t : option Ty)
| AString (s : string)
| ARef (package name : string).

(** [generator.Args], and the three shapes of the second argument of
    [SnippetWriter.Do]: [nil], one type, or an argument map. *)
Inductive DoArgs : Type :=
| NoArgs
| TypeArg (t : option Ty)
| MapArgs (m : gmap string ArgValue).

(** One call of [sw.Do(format, args)]. *)
Record Snippet : Type := mkSnippet {
  template : string;
  arguments : DoArgs
}.

Inductive Severity : Set := InfoV5 | Warning | Error.

Inductive Operand : Type :=
| OType (t : option Ty)
| OName (n : Name)
| OString (s : string)
| OError (e : error).

(** One call of [klog.V(5).Infof], [klog.Warningf] or [klog.Errorf]. *)
Record LogEntry : Type := mkLogEntry {
  severity : Severity;
  format : string;
  operands : list Operand
}.

(** The mutable state: the snippet writer, the log and, for the peer
    resolver, the generator's [peerTypes] cache. *)
Record GenState : Type := mkGenState {
  sw : list Snippet;
  klog : list LogEntry;
  peerTypes : gmap string (option Ty)
}.

(** ** The generation monad *)

Inductive Outcome (A : Type) : Type :=
| Returned (a : A)
| NilDereference
| OutOfFuel.
Arguments Returned {A} a.
Arguments NilDereference {A}.
Arguments OutOfFuel {A}.

Definition Gen (A : Type) : Type := GenState -> Outcome (A * GenState).

Definition ret {A} (a : A) : Gen A := fun s => Returned (a, s).

Definition bind {A B} (m : Gen A) (k : A -> Gen B) : Gen B :=
  fun s =>
    match m s with
    | Returned (a, s') => k a s'
    | NilDereference => NilDereference
    | OutOfFuel => OutOfFuel
    end.

Declare Scope gen_scope.
Delimit Scope gen_scope with gen.
Bind Scope gen_scope with Gen.
Notation "x <- m ;; k" := (bind m (fun x => k))
  (at level 100, m at next level, right associativity) : gen_scope.
Notation "m ;; k" := (bind m (fun _ => k))
  (at level 100, right associativity) : gen_scope.
Open Scope gen_scope.

(** [sw.Do(format, args)] *)
Definition Do (format : string) (args : DoArgs) : Gen unit :=
  fun s => Returned (tt, mkGenState (sw s ++ [mkSnippet format args]) (klog s) (peerTypes s)).

(** Appends what a handler wrote into the snippet writer. *)
Definition written (l : list Snippet) : Gen unit :=
  fun s => Returned (tt, mkGenState (sw s ++ l) (klog s) (peerTypes s)).

Definition logf (lvl : Severity) (fmt : string) (ops : list Operand) : Gen unit :=
  fun s => Returned (tt, mkGenState (sw s) (klog s ++ [mkLogEntry lvl fmt ops]) (peerTypes s)).

Definition V5Infof := logf InfoV5.
Definition Warningf := logf Warning.
Definition Errorf := logf Error.

(** Reading through a pointer. *)
Definition deref {A} (p : option A) : Gen A :=
  match p with
  | Some a => ret a
  | None => fun _ => NilDereference
  end.

(** A [for _, x := range l] loop whose body updates an accumulator. *)
Fixpoint forRange {A B} (body : B -> A -> Gen B) (l : list A) (acc : B) : Gen B :=
  match l with
  | [] => ret acc
  | x :: l' => acc' <- body acc x;; forRange body l' acc'
  end.

(** ** Options and the generator *)

(** [NamedVariable] is declared outside generator.go; [NewNamedVariable]
    pairs a name with a type. *)
Record NamedVariable : Type := NewNamedVariable {
  NV_Name : string;
  NV_Type : option Ty
}.

(** A handler is given the snippet writer and returns an [error]; it is
    modelled by the snippets it writes and the error it returns.  A handler
    may also stop the program ([klog.Fatalf]); such a handler is outside
    the model. *)
Definition Handled : Type := list Snippet * option error.

(** [ManualConversionsTracker] is declared outside generator.go; the
    generator uses its lookup [preexists] and reads its field
    [additionalConversionArguments]. *)
Record ManualConversionsTracker : Type := mkTracker {
  tracker_preexists : option Ty -> option Ty -> option Ty;
  additionalConversionArguments : list NamedVariable
}.

(** [Options] *)
Record Options : Type := mkOptions {
  O_ManualConversionsTracker : ManualConversionsTracker;
  NoUnsafeConversions : bool;
  TagName : string;
  FunctionTagName : string;
  PeerPackagesTagName : string;
  ExtraImportsTagName : string;
  MissingFieldsHandler :
    option (NamedVariable -> NamedVariable -> Member -> Handled);
  InconvertibleFieldsHandler :
    option (NamedVariable -> NamedVariable -> Member -> Member -> Handled);
  UnsupportedTypesHandler :
    option (NamedVariable -> NamedVariable -> Handled);
  ExternalConversionsHandler :
    option (NamedVariable -> NamedVariable -> list Snippet * (bool * option error))
}.

(** [Generator], without the [peerTypes] cache, which is in [GenState].
    The arbitrator is declared outside generator.go; the generator only
    calls its [canUseUnsafeConversion]. *)
Record Generator : Type := mkGenerator {
  G_Options : Options;
  typesPackage : Package;
  outputPackage : Package;
  peerPackages : list string;
  canUseUnsafeConversion : Ty -> Ty -> bool
}.

(** Functions the generator calls that are declared elsewhere: in the
    package's other files ([isDirectlyAssignable], [isFastConversion],
    [unwrapAlias], [findMember], the three-argument [functionHasTag],
    [conversionFunctionNameTemplate], [argsFromType]) and in gengo
    ([types.ExtractCommentTags], [namer.IsPrivateGoName]). *)
Record Helpers : Type := mkHelpers {
  isDirectlyAssignable : option Ty -> option Ty -> bool;
  isFastConversion : Ty -> Ty -> bool;
  unwrapAlias : Ty -> Ty;
  findMember : Ty -> string -> option Member;
  functionHasTag3 : Ty -> string -> string -> bool;
  conversionFunctionNameTemplate : string -> string;
  argsFromType : option Ty -> option Ty -> gmap string ArgValue;
  ExtractCommentTags : string -> list string -> string -> list string;
  IsPrivateGoName : string -> bool
}.

Definition rawNamer : string := "ConversionGenerator_raw".
Definition publicImportTrackingNamer : string := "ConversionGenerator_publicIT".

(** [strings.Split(s, sep)] for a separator of one character. *)
Fixpoint Split_aux (sep : ascii) (s : string) (cur : string) : list string :=
  match s with
  | EmptyString => [cur]
  | String c s' =>
      if bool_decide (c = sep) then cur :: Split_aux sep s' EmptyString
      else Split_aux sep s' (cur ++ String c EmptyString)
  end.

Definition Split (s : string) (sep : ascii) : list string :=
  Split_aux sep s EmptyString.

(** [args.With(key, value)] *)
Definition With (args : gmap string ArgValue) (key : string) (v : ArgValue)
  : gmap string ArgValue := <[key := v]> args.

(** The argument of [optedOut], an [interface{}] the source switches on;
    for any other dynamic type the source ends the program. *)
Inductive TypeOrMember : Type :=
| OfType (t : Ty)
| OfMember (m : Member).

Section Generator.

Variable H : Helpers.
Variable g : Generator.

(** [func extractTag(tagName string, comments []string) []string] *)
Definition extractTag2 (tagName : string) (comments : list string) : list string :=
  if bool_decide (tagName = "") then []
  else ExtractCommentTags H "+" comments tagName.

(** [func (g *Generator) extractTag(comments []string) []string] *)
Definition extractTag (comments : list string) : list string :=
  extractTag2 (TagName (G_Options g)) comments.

(** [func (g *Generator) hasTag(comments []string, value string) bool] *)
Definition hasTag (comments : list string) (value : string) : bool :=
  existsb (fun val => bool_decide (val = value)) (extractTag comments).

(** The loop of [hasTagOption] over the extracted values. *)
Fixpoint hasTagOption_loop (vals : list string) (optionName : string) : bool * string :=
  match vals with
  | [] => (false, "")
  | val :: vals' =>
      match Split val ":" with
      | [k; v] =>
          if bool_decide (k = optionName) then (true, v)
          else hasTagOption_loop vals' optionName
      | _ => hasTagOption_loop vals' optionName
      end
  end.

(** [func (g *Generator) hasTagOption(comments []string, optionName string) (bool, string)] *)
Definition hasTagOption (comments : list string) (optionName : string) : bool * string :=
  hasTagOption_loop (extractTag comments) optionName.

(** [func (g *Generator) optedOut(t interface{}) bool] *)
Definition optedOut (t : TypeOrMember) : bool :=
  let commentLines :=
    match t with
    | OfType t' => T_CommentLines t'
    | OfMember m => M_CommentLines m
    end in
  hasTag commentLines "false".

(** [func (g *Generator) noPublicFun(t *types.Type) bool] *)
Definition noPublicFun (t : Ty) : bool :=
  hasTag (T_CommentLines t) "no-public".

(** [func (g *Generator) functionHasTag(function *types.Type, tagValue string) bool] *)
Definition functionHasTag (function : Ty) (tagValue : string) : bool :=
  functionHasTag3 H function (FunctionTagName (G_Options g)) tagValue.

(** [func (g *Generator) preexists(inType, outType *types.Type)], returning the
    function found, if any. *)
Definition preexists (inType outType : option Ty) : option Ty :=
  tracker_preexists (O_ManualConversionsTracker (G_Options g)) inType outType.

(** [func (g *Generator) useUnsafeConversion(t1, t2 *types.Type) bool] *)
Definition useUnsafeConversion (t1 t2 : Ty) : bool :=
  negb (NoUnsafeConversions (G_Options g)) && canUseUnsafeConversion g t1 t2.

(** [func (g *Generator) extraArgumentsString() string] *)
Definition extraArgumentsString : string :=
  fold_left (fun result namedArgument => result ++ ", " ++ NV_Name namedArgument)
    (additionalConversionArguments (O_ManualConversionsTracker (G_Options g))) "".

(** [func (g *Generator) convertibleOnlyWithinPackage(inType, outType *types.Type) bool] *)
Definition convertibleOnlyWithinPackage (inType outType : option Ty) : Gen bool :=
  i <- deref inType;;
  let '(t, other) :=
    if bool_decide (N_Package (T_Name i) = P_Path (typesPackage g))
    then (inType, outType) else (outType, inType) in
  t' <- deref t;;
  if negb (bool_decide (N_Package (T_Name t') = P_Path (typesPackage g))) then ret false
  else if optedOut (OfType t') then
    V5Infof "type %v requests no conversion generation, skipping" [OType t];;
    ret false
  else if bool_decide (T_Kind t' = Struct) then
    o <- deref other;;
    ret (negb (IsPrivateGoName H (N_Name (T_Name o))))
  else ret false.

(** The lookup name [GetPeerTypeFor] searches for. *)
Definition peerNameOf (t : Ty) : string * bool :=
  let '(present, name) := hasTagOption (T_CommentLines t) "peerName" in
  if present && negb (bool_decide (String.length name = 0))
  then (name, true) else (N_Name (T_Name t), false).

(** The [for _, peerPkgPath := range g.peerPackages] loop of
    [GetPeerTypeFor], leaving at the first hit. *)
Fixpoint searchPeerPackages (context : Context) (peerName : string)
    (pkgs : list string) : option Ty :=
  match pkgs with
  | [] => None
  | peerPkgPath :: pkgs' =>
      match C_Universe context !! peerPkgPath with
      | Some peerPkg =>
          if Has peerPkg peerName then P_Types peerPkg !! peerName
          else searchPeerPackages context peerName pkgs'
      | None => searchPeerPackages context peerName pkgs'
      end
  end.

(** [g.peerTypes[name] = peerType] *)
Definition setPeerType (name : string) (peerType : option Ty) : Gen unit :=
  fun s => Returned (tt, mkGenState (sw s) (klog s) (<[name := peerType]> (peerTypes s))).

(** [func (g *Generator) GetPeerTypeFor(context *generator.Context, t *types.Type) *types.Type] *)
Definition GetPeerTypeFor (context : Context) (t : Ty) : Gen (option Ty) :=
  fun s =>
    match peerTypes s !! N_Name (T_Name t) with
    | Some peerType => Returned (peerType, s)
    | None =>
        (let '(peerName, custom) := peerNameOf t in
         (if custom
          then V5Infof "Using custom peer name %q for input type %s"
                 [OString peerName; OName (T_Name t)]
          else ret tt);;
         let peerType := searchPeerPackages context peerName (peerPackages g) in
         setPeerType (N_Name (T_Name t)) peerType;;
         (if bool_decide (is_Some peerType)
          then V5Infof "Found peer type %s for input type %s" [OType peerType; OType (Some t)]
          else ret tt);;
         ret peerType) s
    end.

End Generator.

(** ** The synthesizer *)

(** The handlers [generateFor] chooses from. *)
Inductive HandlerName : Set :=
| DoBuiltin | DoMap | DoSlice | DoStruct | DoPointer | DoAlias | DoUnknown.

#[global] Instance HandlerName_eq_dec : EqDecision HandlerName.
Proof. solve_decision. Defined.

(** [errors = append(errors, err)] under [err != nil]. *)
Definition appendError (errors : list error) (err : option error) : list error :=
  match err with
  | Some e => errors ++ [e]
  | None => errors
  end.

Section Synthesizer.

Variable H : Helpers.
Variable g : Generator.

Let nameTemplate : string := conversionFunctionNameTemplate H publicImportTrackingNamer.

(** [func (g *Generator) writeConversionFunctionSignature(inType, outType
    *types.Type, sw *generator.SnippetWriter, includeArgsTypes bool)] *)
Definition writeConversionFunctionSignature (inType outType : Ty)
    (includeArgsTypes : bool) : Gen unit :=
  let args := MapArgs (argsFromType H (Some inType) (Some outType)) in
  Do nameTemplate args;;
  Do "(in" NoArgs;;
  (if includeArgsTypes then Do (" *$.inType|" ++ rawNamer ++ "$") args else ret tt);;
  Do ", out" NoArgs;;
  (if includeArgsTypes then Do (" *$.outType|" ++ rawNamer ++ "$") args else ret tt);;
  forRange
    (fun (_ : unit) namedArgument =>
       Do (", " ++ NV_Name namedArgument) NoArgs;;
       (if includeArgsTypes
        then Do (" $.|" ++ rawNamer ++ "$") (TypeArg (NV_Type namedArgument))
        else ret tt))
    (additionalConversionArguments (O_ManualConversionsTracker (G_Options g))) tt;;
  Do ")" NoArgs;;
  (if includeArgsTypes then Do " error" NoArgs else ret tt).

(** [func (g *Generator) doBuiltin(inType, outType *types.Type, sw *generator.SnippetWriter) []error] *)
Definition doBuiltin (inType outType : Ty) : Gen (list error) :=
  (if same_type inType outType
   then Do "*out = *in\n" NoArgs
   else Do ("*out = $.|" ++ rawNamer ++ "$(*in)\n") (TypeArg (Some outType)));;
  ret [].

(** The three-way fallback shared by [doMap], [doSlice] and [doPointer]:
    a manual function, else an internal conversion function; answers
    [manualOrInternal]. *)
Definition manualOrInternalCall (inElem outElem : option Ty) (operands : string)
    : Gen bool :=
  match preexists g inElem outElem with
  | Some function =>
      Do ("if err := $.|" ++ rawNamer ++ "$(" ++ operands ++ extraArgumentsString g
            ++ "); err != nil {\n") (TypeArg (Some function));;
      ret true
  | None =>
      internal <- convertibleOnlyWithinPackage H g inElem outElem;;
      if internal then
        Do ("if err := " ++ nameTemplate ++ "(" ++ operands ++ extraArgumentsString g
              ++ "); err != nil {\n") (MapArgs (argsFromType H inElem outElem));;
        ret true
      else ret false
  end.

(** [func (g *Generator) doMap(inType, outType *types.Type, sw *generator.SnippetWriter) (errors []error)] *)
Definition doMap (inType outType : Ty) : Gen (list error) :=
  Do ("*out = make($.|" ++ rawNamer ++ "$, len(*in))\n") (TypeArg (Some outType));;
  errors <-
    (if isDirectlyAssignable H (T_Key inType) (T_Key outType) then
       Do "for key, val := range *in {\n" NoArgs;;
       if isDirectlyAssignable H (T_Elem inType) (T_Elem outType) then
         (if same_pointer (T_Key inType) (T_Key outType)
          then Do "(*out)[key] = " NoArgs
          else Do ("(*out)[$.|" ++ rawNamer ++ "$(key)] = ") (TypeArg (T_Key outType)));;
         (if same_pointer (T_Elem inType) (T_Elem outType)
          then Do "val\n" NoArgs
          else Do ("$.|" ++ rawNamer ++ "$(val)\n") (TypeArg (T_Elem outType)));;
         ret []
       else
         Do ("newVal := new($.|" ++ rawNamer ++ "$)\n") (TypeArg (T_Elem outType));;
         manualOrInternal <-
           manualOrInternalCall (T_Elem inType) (T_Elem outType) "&val, newVal";;
         errors <-
           (if (manualOrInternal : bool) then
              Do "return err\n}\n" NoArgs;; ret []
            else
              match ExternalConversionsHandler (G_Options g) with
              | None =>
                  Warningf "%s's values of type %s require manual conversion to external type %s"
                    [OName (T_Name inType); OType (T_Elem inType); OName (T_Name outType)];;
                  ret []
              | Some handler =>
                  let '(code, (_, err)) :=
                    handler (NewNamedVariable "&val" (T_Elem inType))
                            (NewNamedVariable "newVal" (T_Elem outType)) in
                  written code;;
                  ret (appendError [] err)
              end);;
         (if same_pointer (T_Key inType) (T_Key outType)
          then Do "(*out)[key] = *newVal\n" NoArgs
          else Do ("(*out)[$.|" ++ rawNamer ++ "$(key)] = *newVal\n") (TypeArg (T_Key outType)));;
         ret errors
     else
       Do "for range *in {\n" NoArgs;;
       Do ("// FIXME: Converting unassignable keys unsupported $.|" ++ rawNamer ++ "$\n")
          (TypeArg (T_Key inType));;
       ret []);;
  Do "}\n" NoArgs;;
  ret errors.

(** The test [inType.Elem == outType.Elem && inType.Elem.Kind == types.Builtin]
    of [doSlice]. *)
Definition sameBuiltinElem (inType outType : Ty) : Gen bool :=
  if same_pointer (T_Elem inType) (T_Elem outType) then
    e <- deref (T_Elem inType);;
    ret (bool_decide (T_Kind e = Builtin))
  else ret false.

(** [func (g *Generator) doSlice(inType, outType *types.Type, sw *generator.SnippetWriter) (errors []error)] *)
Definition doSlice (inType outType : Ty) : Gen (list error) :=
  Do ("*out = make($.|" ++ rawNamer ++ "$, len(*in))\n") (TypeArg (Some outType));;
  bulk <- sameBuiltinElem inType outType;;
  if (bulk : bool) then
    Do "copy(*out, *in)\n" NoArgs;;
    ret []
  else
    Do "for i := range *in {\n" NoArgs;;
    errors <-
      (if isDirectlyAssignable H (T_Elem inType) (T_Elem outType) then
         (if same_pointer (T_Elem inType) (T_Elem outType)
          then Do "(*out)[i] = (*in)[i]\n" NoArgs
          else Do ("(*out)[i] = $.|" ++ rawNamer ++ "$((*in)[i])\n") (TypeArg (T_Elem outType)));;
         ret []
       else
         manualOrInternal <-
           manualOrInternalCall (T_Elem inType) (T_Elem outType) "&(*in)[i], &(*out)[i]";;
         if (manualOrInternal : bool) then
           Do "return err\n}\n" NoArgs;; ret []
         else
           handled <-
             match ExternalConversionsHandler (G_Options g) with
             | None =>
                 Warningf "%s's items of type %s require manual conversion to external type %s"
                   [OName (T_Name inType); OName (T_Name inType); OName (T_Name outType)];;
                 ret (false, [])
             | Some handler =>
                 let '(code, (conversionHandled, err)) :=
                   handler (NewNamedVariable "&(*in)[i]" (T_Elem inType))
                           (NewNamedVariable "&(*out)[i]" (T_Elem outType)) in
                 written code;;
                 ret (conversionHandled, appendError [] err)
             end;;
           let '(conversionHandled, errors) := handled in
           (if (conversionHandled : bool) then ret tt else Do "_ = i\n" NoArgs);;
           ret errors);;
    Do "}\n" NoArgs;;
    ret errors.

(** [func (g *Generator) doPointer(inType, outType *types.Type, sw *generator.SnippetWriter) (errors []error)] *)
Definition doPointer (inType outType : Ty) : Gen (list error) :=
  Do ("*out = new($.Elem|" ++ rawNamer ++ "$)\n") (TypeArg (Some outType));;
  if isDirectlyAssignable H (T_Elem inType) (T_Elem outType) then
    (if same_pointer (T_Elem inType) (T_Elem outType)
     then Do "**out = **in\n" NoArgs
     else Do ("**out = $.|" ++ rawNamer ++ "$(**in)\n") (TypeArg (T_Elem outType)));;
    ret []
  else
    manualOrInternal <- manualOrInternalCall (T_Elem inType) (T_Elem outType) "*in, *out";;
    if (manualOrInternal : bool) then
      Do "return err\n}\n" NoArgs;; ret []
    else
      match ExternalConversionsHandler (G_Options g) with
      | None =>
          Warningf "%s's values of type %s require manual conversion to external type %s"
            [OName (T_Name inType); OType (T_Elem inType); OName (T_Name outType)];;
          ret []
      | Some handler =>
          let '(code, (_, err)) :=
            handler (NewNamedVariable "*in" (Some inType))
                    (NewNamedVariable "*out" (Some outType)) in
          written code;;
          ret (appendError [] err)
      end.

(** [func (g *Generator) doUnknown(inType, outType *types.Type, sw *generator.SnippetWriter) []error] *)
Definition doUnknown (inType outType : Ty) : Gen (list error) :=
  match UnsupportedTypesHandler (G_Options g) with
  | None =>
      Warningf "Don't know how to convert %s to %s"
        [OName (T_Name inType); OName (T_Name outType)];;
      ret []
  | Some handler =>
      let '(code, err) :=
        handler (NewNamedVariable "in" (Some inType)) (NewNamedVariable "out" (Some outType)) in
      written code;;
      ret (appendError [] err)
  end.

(** [func (g *Generator) doAlias(inType, outType *types.Type, sw *generator.SnippetWriter) []error] *)
Definition doAlias (inType outType : Ty) : Gen (list error) :=
  doUnknown inType outType.

(** [func (g *Generator) callExternalConversionsHandlerForStructField(...) []error] *)
Definition callExternalConversionsHandlerForStructField
    (inType outType inMemberType outMemberType : Ty) (inMember outMember : Member)
    (errors : list error) : Gen (list error) :=
  match ExternalConversionsHandler (G_Options g) with
  | None =>
      Warningf "%s.%s requires manual conversion to external type %s.%s"
        [OName (T_Name inType); OString (M_Name inMember);
         OName (T_Name outType); OString (M_Name outMember)];;
      ret errors
  | Some handler =>
      let inVar := NewNamedVariable ("&in." ++ M_Name inMember) (Some inMemberType) in
      let outVar := NewNamedVariable ("&out." ++ M_Name outMember) (Some outMemberType) in
      let '(code, (_, err)) := handler inVar outVar in
      written code;;
      ret (appendError errors err)
  end.

End Synthesizer.

Section Records.

Variable H : Helpers.
Variable g : Generator.

Let nameTemplate : string := conversionFunctionNameTemplate H publicImportTrackingNamer.

(** Lines 421-430 of [doStruct]: when the member's type is an alias, a
    copy of the underlying type that carries the alias's name. *)
Definition topLevelCopy (fresh : Addr) (memberType : Ty) : Ty :=
  let underlying := unwrapAlias H memberType in
  if negb (same_type underlying memberType) then
    mkType fresh (T_Name memberType) (T_Kind underlying) (T_CommentLines underlying)
      (T_Members underlying) (T_Elem underlying) (T_Key underlying)
      (T_Underlying underlying)
  else memberType.

(** The [switch inMemberType.Kind] of the unsafe fast path: the template
    written, for the kinds that have one. *)
Definition unsafeTemplate (k : Kind) : option string :=
  match k with
  | Pointer =>
      Some ("out.$.name$ = ($.outType|" ++ rawNamer ++ "$)($.Pointer|" ++ rawNamer
              ++ "$(in.$.name$))\n")
  | Map =>
      Some ("out.$.name$ = *(*$.outType|" ++ rawNamer ++ "$)($.Pointer|" ++ rawNamer
              ++ "$(&in.$.name$))\n")
  | Slice =>
      Some ("out.$.name$ = *(*$.outType|" ++ rawNamer ++ "$)($.Pointer|" ++ rawNamer
              ++ "$(&in.$.name$))\n")
  | _ => None
  end.

(** The call of an internal conversion function on a member, or the
    deferral to the external handler: the branch shared by the [Struct],
    [Alias] and [default] cases of [doStruct]. *)
Definition internalOrExternal (inType outType inMemberType outMemberType : Ty)
    (inMember outMember : Member) (args : gmap string ArgValue)
    (errors : list error) : Gen (list error) :=
  internal <- convertibleOnlyWithinPackage H g (Some inMemberType) (Some outMemberType);;
  if (internal : bool) then
    Do ("if err := " ++ nameTemplate ++ "(&in.$.name$, &out.$.name$"
          ++ extraArgumentsString g ++ "); err != nil {\n") (MapArgs args);;
    Do "return err\n}\n" NoArgs;;
    ret errors
  else
    callExternalConversionsHandlerForStructField g inType outType
      inMemberType outMemberType inMember outMember errors.

(** Lines 465-528 of [doStruct]: the kind check and the [switch] on the
    member's kind. *)
Definition convertMember (self : Ty -> Ty -> Gen (list error))
    (inType outType inMemberType outMemberType : Ty) (inMember outMember : Member)
    (args : gmap string ArgValue) (errors : list error) : Gen (list error) :=
  if negb (bool_decide (T_Kind inMemberType = T_Kind outMemberType)) then
    match InconvertibleFieldsHandler (G_Options g) with
    | None =>
        Warningf "%s.%s requires manual conversion: inconvertible types: %s VS %s for %s.%s"
          [OName (T_Name inType); OString (M_Name inMember);
           OType (Some inMemberType); OType (Some outMemberType);
           OName (T_Name outType); OString (M_Name outMember)];;
        ret errors
    | Some handler =>
        let '(code, err) :=
          handler (NewNamedVariable "in" (Some inType)) (NewNamedVariable "out" (Some outType))
                  inMember outMember in
        written code;;
        ret (appendError errors err)
    end
  else
    match T_Kind inMemberType with
    | Builtin =>
        (if same_type inMemberType outMemberType
         then Do "out.$.name$ = in.$.name$\n" (MapArgs args)
         else Do ("out.$.name$ = $.outType|" ++ rawNamer ++ "$(in.$.name$)\n") (MapArgs args));;
        ret errors
    | Map | Slice | Pointer =>
        if isDirectlyAssignable H (Some inMemberType) (Some outMemberType) then
          Do "out.$.name$ = in.$.name$\n" (MapArgs args);;
          ret errors
        else
          Do "if in.$.name$ != nil {\n" (MapArgs args);;
          Do "in, out := &in.$.name$, &out.$.name$\n" (MapArgs args);;
          self inMemberType outMemberType;;
          Do "} else {\n" NoArgs;;
          Do "out.$.name$ = nil\n" (MapArgs args);;
          Do "}\n" NoArgs;;
          ret errors
    | Struct =>
        if isDirectlyAssignable H (Some inMemberType) (Some outMemberType) then
          Do "out.$.name$ = in.$.name$\n" (MapArgs args);;
          ret errors
        else
          internalOrExternal inType outType inMemberType outMemberType
            inMember outMember args errors
    | Alias =>
        if isDirectlyAssignable H (Some inMemberType) (Some outMemberType) then
          (if same_type inMemberType outMemberType
           then Do "out.$.name$ = in.$.name$\n" (MapArgs args)
           else Do ("out.$.name$ = $.outType|" ++ rawNamer ++ "$(in.$.name$)\n") (MapArgs args));;
          ret errors
        else
          internalOrExternal inType outType inMemberType outMemberType
            inMember outMember args errors
    | _ =>
        internalOrExternal inType outType inMemberType outMemberType
          inMember outMember args errors
    end.

(** Lines 450-463 of [doStruct]: the manual conversion function of the
    member's declared types, then [convertMember]. *)
Definition manualOrConvert (self : Ty -> Ty -> Gen (list error))
    (inType outType inMemberType outMemberType : Ty) (inMember outMember : Member)
    (args : gmap string ArgValue) (errors : list error) : Gen (list error) :=
  match preexists g (Some (M_Type inMember)) (Some (M_Type outMember)) with
  | Some function =>
      if functionHasTag H g function "drop" then ret errors
      else if negb (functionHasTag H g function "copy-only")
              || negb (isFastConversion H inMemberType outMemberType) then
        Do ("if err := $.function|" ++ rawNamer ++ "$(&in.$.name$, &out.$.name$"
              ++ extraArgumentsString g ++ "); err != nil {\n")
           (MapArgs (<["function" := AType (Some function)]> args));;
        Do "return err\n" NoArgs;;
        Do "}\n" NoArgs;;
        ret errors
      else
        V5Infof "Skipped function %s because it is copy-only and we can use direct assignment"
          [OName (T_Name function)];;
        convertMember self inType outType inMemberType outMemberType
          inMember outMember args errors
  | None =>
      convertMember self inType outType inMemberType outMemberType
        inMember outMember args errors
  end.

(** Lines 418-448 of [doStruct], for a member the target type has too:
    the effective member types, the unsafe fast path, then
    [manualOrConvert]. *)
Definition convertFoundMember (self : Ty -> Ty -> Gen (list error))
    (inType outType : Ty) (inMember outMember : Member)
    (errors : list error) : Gen (list error) :=
  let inMemberType := topLevelCopy CopiedIn (M_Type inMember) in
  let outMemberType := topLevelCopy CopiedOut (M_Type outMember) in
  let args :=
    With (argsFromType H (Some inMemberType) (Some outMemberType))
         "name" (AString (M_Name inMember)) in
  if useUnsafeConversion g inMemberType outMemberType then
    let args := With args "Pointer" (ARef "unsafe" "Pointer") in
    match unsafeTemplate (T_Kind inMemberType) with
    | Some fastPath => Do fastPath (MapArgs args);; ret errors
    | None =>
        manualOrConvert self inType outType inMemberType outMemberType
          inMember outMember args errors
    end
  else
    manualOrConvert self inType outType inMemberType outMemberType
      inMember outMember args errors.

(** The body of the loop of [doStruct] for one member, lines 402-528. *)
Definition doStructMember (self : Ty -> Ty -> Gen (list error))
    (inType outType : Ty) (errors : list error) (inMember : Member)
    : Gen (list error) :=
  if optedOut H g (OfMember inMember) then
    Do ("// INFO: in." ++ M_Name inMember ++ " opted out of conversion generation\n") NoArgs;;
    ret errors
  else
    match findMember H outType (M_Name inMember) with
    | None =>
        match MissingFieldsHandler (G_Options g) with
        | None =>
            Warningf "%s.%s requires manual conversion: does not exist in peer-type %s"
              [OName (T_Name inType); OString (M_Name inMember); OName (T_Name outType)];;
            ret errors
        | Some handler =>
            let '(code, err) :=
              handler (NewNamedVariable "in" (Some inType))
                      (NewNamedVariable "out" (Some outType)) inMember in
            written code;;
            ret (appendError errors err)
        end
    | Some outMember =>
        convertFoundMember self inType outType inMember outMember errors
    end.

(** [func (g *Generator) doStruct(inType, outType *types.Type, sw *generator.SnippetWriter) (errors []error)],
    [self] being the [g.generateFor] it calls on members. *)
Definition doStruct (self : Ty -> Ty -> Gen (list error))
    (inType outType : Ty) : Gen (list error) :=
  forRange (doStructMember self inType outType) (T_Members inType) [].

(** The [switch inType.Kind] of [generateFor]. *)
Definition selectHandler (inType outType : Ty) : HandlerName :=
  match T_Kind inType with
  | Builtin => DoBuiltin
  | Map => DoMap
  | Slice => DoSlice
  | Struct => DoStruct
  | Pointer => DoPointer
  | Alias => DoAlias
  | _ => DoUnknown
  end.

(** The function a handler name stands for. *)
Definition handler (self : Ty -> Ty -> Gen (list error)) (f : HandlerName)
    : Ty -> Ty -> Gen (list error) :=
  match f with
  | DoBuiltin => doBuiltin
  | DoMap => doMap H g
  | DoSlice => doSlice H g
  | DoStruct => doStruct self
  | DoPointer => doPointer H g
  | DoAlias => doAlias g
  | DoUnknown => doUnknown g
  end.

(** [func (g *Generator) generateFor(inType, outType *types.Type, sw *generator.SnippetWriter) []error].
    [doStruct] calls [generateFor] back; [fuel] bounds the depth of these
    calls. *)
Fixpoint generateFor (fuel : nat) (inType outType : Ty) : Gen (list error) :=
  match fuel with
  | O => fun _ => OutOfFuel
  | S fuel' =>
      V5Infof "generating %v -> %v" [OType (Some inType); OType (Some outType)];;
      let f := handler (generateFor fuel') (selectHandler inType outType) in
      f inType outType
  end.

(** The public wrapper [generateConversion] writes, lines 220-224. *)
Definition publicWrapper (inType outType : Ty) : Gen unit :=
  Do ("// " ++ nameTemplate ++ " is an autogenerated conversion function.\nfunc ")
     (MapArgs (argsFromType H (Some inType) (Some outType)));;
  writeConversionFunctionSignature H g inType outType true;;
  Do " {\nreturn auto" NoArgs;;
  writeConversionFunctionSignature H g inType outType false;;
  Do "\n}\n\n" NoArgs.

(** [func (g *Generator) generateConversion(inType, outType *types.Type, sw *generator.SnippetWriter)] *)
Definition generateConversion (fuel : nat) (inType outType : Ty) : Gen unit :=
  Do "func auto" NoArgs;;
  writeConversionFunctionSignature H g inType outType true;;
  Do " {\n" NoArgs;;
  errors <- generateFor fuel inType outType;;
  Do "return nil\n" NoArgs;;
  Do "}\n\n" NoArgs;;
  if bool_decide (is_Some (preexists g (Some inType) (Some outType))) then ret tt
  else if noPublicFun H g inType || noPublicFun H g outType then ret tt
  else if bool_decide (List.length errors = 0) then publicWrapper inType outType
  else
    Errorf "Warning: could not find nor generate a final Conversion function for %v -> %v"
      [OType (Some inType); OType (Some outType)];;
    Errorf "  you need to add manual conversions:" [];;
    forRange (fun (_ : unit) err => Errorf "      - %v" [OError err]) errors tt.

End Records.

(** ** The dispatch as the specification words it *)

(** The specification's table of per-kind handlers: Builtin, Associative,
    Sequence, Record, Pointer, NamedAlias, and Unknown for every other
    kind. *)
Definition spec_dispatch (k : Kind) : HandlerName :=
  match k with
  | Builtin => DoBuiltin
  | Map => DoMap
  | Slice => DoSlice
  | Struct => DoStruct
  | Pointer => DoPointer
  | Alias => DoAlias
  | _ => DoUnknown
  end.

(** ** Pieces of generated text, for the statements below *)

Section Text.

Variable H : Helpers.
Variable g : Generator.

Let nameTemplate : string := conversionFunctionNameTemplate H publicImportTrackingNamer.

(** What [writeConversionFunctionSignature] writes. *)
Definition signatureText (inType outType : Ty) (includeArgsTypes : bool) : list Snippet :=
  let args := MapArgs (argsFromType H (Some inType) (Some outType)) in
  [mkSnippet nameTemplate args; mkSnippet "(in" NoArgs]
  ++ (if includeArgsTypes then [mkSnippet (" *$.inType|" ++ rawNamer ++ "$") args] else [])
  ++ [mkSnippet ", out" NoArgs]
  ++ (if includeArgsTypes then [mkSnippet (" *$.outType|" ++ rawNamer ++ "$") args] else [])
  ++ flat_map
       (fun namedArgument =>
          mkSnippet (", " ++ NV_Name namedArgument) NoArgs
          :: (if includeArgsTypes
              then [mkSnippet (" $.|" ++ rawNamer ++ "$") (TypeArg (NV_Type namedArgument))]
              else []))
       (additionalConversionArguments (O_ManualConversionsTracker (G_Options g)))
  ++ [mkSnippet ")" NoArgs]
  ++ (if includeArgsTypes then [mkSnippet " error" NoArgs] else []).

(** The opening of the private function: [func auto<signature> {]. *)
Definition privateHeader (inType outType : Ty) : list Snippet :=
  [mkSnippet "func auto" NoArgs] ++ signatureText inType outType true
  ++ [mkSnippet " {\n" NoArgs].

(** The closing of the private function. *)
Definition privateFooter : list Snippet :=
  [mkSnippet "return nil\n" NoArgs; mkSnippet "}\n\n" NoArgs].

(** The public wrapper. *)
Definition publicWrapperText (inType outType : Ty) : list Snippet :=
  [mkSnippet ("// " ++ nameTemplate ++ " is an autogenerated conversion function.\nfunc ")
     (MapArgs (argsFromType H (Some inType) (Some outType)))]
  ++ signatureText inType outType true
  ++ [mkSnippet " {\nreturn auto" NoArgs]
  ++ signatureText inType outType false
  ++ [mkSnippet "\n}\n\n" NoArgs].

(** The three conditions under which [generateConversion] goes on to the
    public wrapper. *)
Definition publicEligible (inType outType : Ty) (errors : list error) : bool :=
  negb (bool_decide (is_Some (preexists g (Some inType) (Some outType))))
  && negb (noPublicFun H g inType) && negb (noPublicFun H g outType)
  && bool_decide (errors = []).

(** The side of a pair [convertibleOnlyWithinPackage] examines, and the
    other one. *)
Definition homeSide (inType outType : Ty) : Ty * Ty :=
  if bool_decide (N_Package (T_Name inType) = P_Path (typesPackage g))
  then (inType, outType) else (outType, inType).

End Text.

(** [s] with [code] written and [entries] logged. *)
Definition extend (s : GenState) (code : list Snippet) (entries : list LogEntry) : GenState :=
  mkGenState (sw s ++ code) (klog s ++ entries) (peerTypes s).

(** The generator with unsafe conversions switched off. *)
Definition withoutUnsafe (g : Generator) : Generator :=
  let o := G_Options g in
  mkGenerator
    (mkOptions (O_ManualConversionsTracker o) true (TagName o) (FunctionTagName o)
       (PeerPackagesTagName o) (ExtraImportsTagName o) (MissingFieldsHandler o)
       (InconvertibleFieldsHandler o) (UnsupportedTypesHandler o)
       (ExternalConversionsHandler o))
    (typesPackage g) (outputPackage g) (peerPackages g) (canUseUnsafeConversion g).

(** Two outcomes that differ at most in the arguments passed along with
    the templates. *)
Definition sameText (s1 s2 : GenState) : Prop :=
  map template (sw s1) = map template (sw s2)
  /\ klog s1 = klog s2 /\ peerTypes s1 = peerTypes s2.

Definition sameOutcome {A} (o1 o2 : Outcome (A * GenState)) : Prop :=
  match o1, o2 with
  | Returned (a1, s1), Returned (a2, s2) => a1 = a2 /\ sameText s1 s2
  | NilDereference, NilDereference => True
  | OutOfFuel, OutOfFuel => True
  | _, _ => False
  end.

(** ** The layout equivalence arbiter *)

Section Arbiter.

Variable tracker : ManualConversionsTracker.
Variable copyOnly : Ty -> bool.

(** A manual conversion between the two types that is not copy-only. *)
Definition manualOverride (a b : Ty) : bool :=
  match tracker_preexists tracker (Some a) (Some b) with
  | Some function => negb (copyOnly function)
  | None => false
  end.

(** Modelled from the spec: [canUseUnsafeConversion] is declared outside
    generator.go.  Section 4.3: two types are layout-equivalent iff,
    recursively, every member of A has a same-position counterpart in B
    of layout-equivalent type, and no intervening manual conversion
    changes the bits (a non-copy-only manual override disqualifies
    equivalence); Pointer, Sequence and Associative wrappers are
    equivalent iff their element types are; chains that resolve to
    identical primitives are equivalent. *)
Fixpoint layoutEquivalent (a b : Ty) {struct a} : bool :=
  negb (manualOverride a b)
  && match T_Kind a, T_Kind b with
     | Builtin, Builtin => same_type a b
     | Struct, Struct =>
         (fix members (ms ns : list Member) {struct ms} : bool :=
            match ms, ns with
            | [], _ => true
            | m :: ms', n :: ns' => layoutEquivalent (M_Type m) (M_Type n) && members ms' ns'
            | _ :: _, [] => false
            end) (T_Members a) (T_Members b)
     | Pointer, Pointer | Slice, Slice =>
         match T_Elem a, T_Elem b with
         | Some x, Some y => layoutEquivalent x y
         | _, _ => false
         end
     | Map, Map =>
         match T_Key a, T_Key b, T_Elem a, T_Elem b with
         | Some k, Some k', Some x, Some y => layoutEquivalent k k' && layoutEquivalent x y
         | _, _, _, _ => false
         end
     | _, _ => false
     end.

End Arbiter.

(** ** A worked instance

    The helpers of [Helpers] are parameters of the development.  This
    module fixes one instance of them and a small universe of two packages,
    [a] (the types package) and [b] (its peer), on which the statements
    below are exercised. *)

Module Sample.

(** [strings.HasPrefix] with the prefix cut off. *)
Fixpoint stripPrefix (p s : string) : option string :=
  match p, s with
  | EmptyString, _ => Some s
  | String c p', String d s' => if bool_decide (c = d) then stripPrefix p' s' else None
  | String _ _, EmptyString => None
  end.

(** The values of the lines [<marker><tag>=<value>]. *)
Definition extractCommentTags (marker : string) (lines : list string) (tag : string)
    : list string :=
  flat_map
    (fun line =>
       match stripPrefix (marker ++ tag ++ "=") line with
       | Some v => [v]
       | None => []
       end) lines.

(** A name is private when it is empty or does not start with an upper
    case letter. *)
Definition isPrivateGoName (name : string) : bool :=
  match name with
  | EmptyString => true
  | String c _ =>
      let n := nat_of_ascii c in negb ((65 <=? n)%nat && (n <=? 90)%nat)
  end.

Definition isPrimitive (t : Ty) : bool :=
  match T_Kind t with
  | Builtin => true
  | Alias =>
      match T_Underlying t with
      | Some u => bool_decide (T_Kind u = Builtin)
      | None => false
      end
  | _ => false
  end.

Fixpoint isAssignable (t : Ty) {struct t} : bool :=
  isPrimitive t
  || (bool_decide (T_Kind t = Struct)
      && (fix all (ms : list Member) : bool :=
            match ms with
            | [] => true
            | m :: ms' => isAssignable (M_Type m) && all ms'
            end) (T_Members t)).

Definition directlyAssignable (a b : option Ty) : bool :=
  match a, b with
  | Some x, Some y =>
      isAssignable x
      && (isPrimitive x || bool_decide (N_Package (T_Name x) = N_Package (T_Name y)))
  | _, _ => false
  end.

Definition fastConversion (a b : Ty) : bool :=
  match T_Kind a with
  | Builtin => true
  | Map | Slice | Pointer | Struct | Alias => directlyAssignable (Some a) (Some b)
  | _ => false
  end.

(** Follows [Underlying] down to the first type that is not an alias. *)
Fixpoint unwrap (t : Ty) {struct t} : Ty :=
  match T_Kind t, T_Underlying t with
  | Alias, Some u => unwrap u
  | _, _ => t
  end.

Definition memberNamed (t : Ty) (name : string) : option Member :=
  if bool_decide (T_Kind t = Struct)
  then List.find (fun m => bool_decide (M_Name m = name)) (T_Members t)
  else None.

Definition hasFunctionTag (function : Ty) (tagName tagValue : string) : bool :=
  existsb (fun v => bool_decide (v = tagValue))
    (extractCommentTags "+" (T_CommentLines function) tagName).

Definition helpers : Helpers :=
  mkHelpers directlyAssignable fastConversion unwrap memberNamed hasFunctionTag
    (fun namer => "Convert_$.inType|" ++ namer ++ "$_To_$.outType|" ++ namer ++ "$")
    (fun i o => <["inType" := AType i]> (<["outType" := AType o]> ∅))
    extractCommentTags isPrivateGoName.

Definition tag : string := "conversion-gen".

(** A tracker that holds the given functions, keyed by the addresses of
    the two types. *)
Definition trackerOf (functions : list (Addr * Addr * Ty)) : ManualConversionsTracker :=
  mkTracker
    (fun i o =>
       match i, o with
       | Some x, Some y =>
           match List.find (fun e => bool_decide (e.1 = (T_Addr x, T_Addr y))) functions with
           | Some e => Some e.2
           | None => None
           end
       | _, _ => None
       end)
    [].

Definition options (functions : list (Addr * Addr * Ty))
    (missing : option (NamedVariable -> NamedVariable -> Member -> Handled)) : Options :=
  mkOptions (trackerOf functions) false tag tag tag "conversion-gen-extra-imports"
    missing None None None.

Definition pkgA : Package := mkPackage "a" [] ∅.

(** The generator for package [a] with peer [b]; its arbitrator is
    [layoutEquivalent] over the same tracker. *)
Definition generatorOf (functions : list (Addr * Addr * Ty))
    (missing : option (NamedVariable -> NamedVariable -> Member -> Handled)) : Generator :=
  mkGenerator (options functions missing) pkgA pkgA ["b"]
    (layoutEquivalent (trackerOf functions)
       (fun f => hasFunctionTag f tag "copy-only")).

Definition start : GenState := mkGenState [] [] ∅.

Definition builtin (n : nat) (name : string) : Ty :=
  mkType (Interned n) (mkName "" name "") Builtin [] [] None None None.

Definition record (n : nat) (pkg name : string) (comments : list string)
    (members : list Member) : Ty :=
  mkType (Interned n) (mkName pkg name "") Struct comments members None None None.

Definition field (name : string) (comments : list string) (t : Ty) : Member :=
  mkMember name false comments "" t.

Definition function (n : nat) (name : string) (comments : list string) : Ty :=
  mkType (Interned n) (mkName "a" name "") DeclarationOf comments [] None None None.

Definition stringT : Ty := builtin 1 "string".
Definition intT : Ty := builtin 2 "int".

Definition sliceOfString : Ty :=
  mkType (Interned 3) (mkName "" "[]string" "") Slice [] [] (Some stringT) None None.


(** [a.Key] and [b.Key], two records used as map keys. *)
Definition aKey : Ty := record 10 "a" "Key" [] [field "ID" [] stringT].
Definition bKey : Ty := record 11 "b" "Key" [] [field "ID" [] stringT].

Definition aByKey : Ty :=
  mkType (Interned 12) (mkName "" "map[a.Key]string" "") Map [] []
    (Some stringT) (Some aKey) None.
Definition bByKey : Ty :=
  mkType (Interned 13) (mkName "" "map[b.Key]string" "") Map [] []
    (Some stringT) (Some bKey) None.

(** [a.Foo] has a member [Foo] that [b.Foo] lacks. *)
Definition aFoo : Ty := record 20 "a" "Foo" [] [field "Foo" [] stringT].
Definition bFoo : Ty := record 21 "b" "Foo" [] [].

(** The same, with the member opted out. *)
Definition aFooOptedOut : Ty :=
  record 22 "a" "Foo" [] [field "Foo" ["+conversion-gen=false"] stringT].

(** [type Foo string] in package [b]. *)
Definition bFooAlias : Ty :=
  mkType (Interned 23) (mkName "b" "Foo" "") Alias [] [] None None (Some stringT).

(** Records with a member [Names []string], and a manual conversion
    function for the member's types tagged both drop and copy-only. *)
Definition aTags : Ty := record 30 "a" "Tags" [] [field "Names" [] sliceOfString].
Definition bTags : Ty := record 31 "b" "Tags" [] [field "Names" [] sliceOfString].
Definition convertNames : Ty :=
  function 32 "Convert_Slice_string_To_Slice_string"
    ["+conversion-gen=drop"; "+conversion-gen=copy-only"].
Definition convertNamesDropOnly : Ty :=
  function 33 "Convert_Slice_string_To_Slice_string" ["+conversion-gen=drop"].

(** Records with a member [Item], of the record types [a.Item] and
    [b.Item] whose layouts differ, and a copy-only manual conversion
    function between the two. *)
Definition aItem : Ty := record 40 "a" "Item" [] [field "N" [] intT].
Definition bItem : Ty := record 41 "b" "Item" [] [field "N" [] stringT].
Definition aBox : Ty := record 42 "a" "Box" [] [field "Item" [] aItem].
Definition bBox : Ty := record 43 "b" "Box" [] [field "Item" [] bItem].
Definition convertItem : Ty :=
  function 44 "Convert_a_Item_To_b_Item" ["+conversion-gen=copy-only"].

(** Records whose member [Count] is an [int] on both sides, and a
    copy-only manual conversion function for it. *)
Definition aCount : Ty := record 50 "a" "Count" [] [field "Count" [] intT].
Definition bCount : Ty := record 51 "b" "Count" [] [field "Count" [] intT].
Definition convertCount : Ty :=
  function 52 "Convert_int_To_int" ["+conversion-gen=copy-only"].

(** A missing fields handler that fails, as [ErrorMissingFieldHandler]
    of the converter package does. *)
Definition failOnMissing (inVar outVar : NamedVariable) (member : Member) : Handled :=
  ([mkSnippet ("// WARNING: in." ++ M_Name member
                 ++ " requires manual conversion: does not exist in peer-type\n") NoArgs],
   Some ("field " ++ M_Name member ++ " requires manual conversion")).

(** A universe in which both [a] and [b] declare [Foo]. *)
Definition universe : Universe :=
  <["a" := mkPackage "a" [] (<["Foo" := aFoo]> ∅)]>
    (<["b" := mkPackage "b" [] (<["Foo" := bFoo]> ∅)]> ∅).

End Sample.

(** A computation is [steady] when it never runs out of fuel and, when it
    returns, has only written snippets and logged entries after those
    already there. *)
Definition steady {A} (m : Gen A) : Prop :=
  forall s,
    match m s with
    | Returned (_, s') => exists code entries, s' = extend s code entries
    | NilDereference => True
    | OutOfFuel => False
    end.

(** The kinds of the [case types.Map, types.Slice, types.Pointer] of
    [doStruct], the only ones on which it calls [generateFor] back. *)
Definition isContainer (k : Kind) : bool :=
  match k with
  | Map | Slice | Pointer => true
  | _ => false
  end.

(** The package at [path] of the universe declares [t] under [name]. *)
Definition declaredIn (context : Context) (name path : string) (t : Ty) : Prop :=
  exists pkg, C_Universe context !! path = Some pkg /\ P_Types pkg !! name = Some t.

(** ** The loop body of [doStruct], for the statements below *)

Section MemberText.

Variable H : Helpers.
Variable g : Generator.

(** The argument map of a member's snippets: [inType], [outType] and
    [name], and [Pointer] once the unsafe-conversion check has approved
    the member's types. *)
Definition memberArgs (inMember : Member) (inMemberType outMemberType : Ty)
    : gmap string ArgValue :=
  let args :=
    With (argsFromType H (Some inMemberType) (Some outMemberType))
         "name" (AString (M_Name inMember)) in
  if useUnsafeConversion g inMemberType outMemberType
  then With args "Pointer" (ARef "unsafe" "Pointer") else args.

(** The template of the unsafe fast path, when [doStruct] takes it. *)
Definition fastPath (inMemberType outMemberType : Ty) : option string :=
  if useUnsafeConversion g inMemberType outMemberType
  then unsafeTemplate (T_Kind inMemberType) else None.

(** The call of a manual conversion function on a member. *)
Definition manualCall (function : Ty) (args : gmap string ArgValue) : list Snippet :=
  [mkSnippet ("if err := $.function|" ++ rawNamer ++ "$(&in.$.name$, &out.$.name$"
                ++ extraArgumentsString g ++ "); err != nil {\n")
     (MapArgs (<["function" := AType (Some function)]> args));
   mkSnippet "return err\n" NoArgs;
   mkSnippet "}\n" NoArgs].

End MemberText.

(** A computation that, when it returns errors, returns the given ones
    followed by new ones. *)
Definition keeps (errors : list error) (m : Gen (list error)) : Prop :=
  forall s errors' s',
    m s = Returned (errors', s') -> exists new, errors' = (errors ++ new)%list.

(** Two computations that, run from states with the same text, end in the
    same outcome up to the arguments of the snippets. *)
Definition alike {A} (m1 m2 : Gen A) : Prop :=
  forall s1 s2, sameText s1 s2 -> sameOutcome (m1 s1) (m2 s2).

(** ** The generator as gengo drives it *)

Section Driver.

Variable H : Helpers.
Variable g : Generator.

(** [func (g *Generator) Filter(context *generator.Context, t *types.Type) bool] *)
Definition Filter (context : Context) (t : Ty) : Gen bool :=
  peerType <- GetPeerTypeFor H g context t;;
  match peerType with
  | Some _ => convertibleOnlyWithinPackage H g (Some t) peerType
  | None => ret false
  end.

(** [func (g *Generator) GenerateType(context *generator.Context, t *types.Type, w io.Writer) error].
    With a nil peer the source goes on and, at the latest when the second
    [generateConversion] reaches [inType.Kind] in [generateFor], dereferences
    it: the outcome is [NilDereference].  The value returned, [sw.Error()],
    is the snippet writer's own and is left out. *)
Definition GenerateType (fuel : nat) (context : Context) (t : Ty) : Gen unit :=
  V5Infof "generating for type %v" [OType (Some t)];;
  peerType <- GetPeerTypeFor H g context t;;
  peer <- deref peerType;;
  generateConversion H g fuel t peer;;
  generateConversion H g fuel peer t.

(** [func (g *Generator) extractDocFileTag(tagName string) []string] *)
Definition extractDocFileTag (tagName : string) : list string :=
  extractTag2 H tagName (P_Comments (typesPackage g)).

(** The double quote. *)
Definition quote : string := String (ascii_of_nat 34) EmptyString.

(** [strings.HasSuffix(s, suffix)]: some tail of [s] is [suffix]. *)
Fixpoint HasSuffix (s suffix : string) : bool :=
  bool_decide (s = suffix)
  || match s with
     | EmptyString => false
     | String _ s' => HasSuffix s' suffix
     end.

(** [func (g *Generator) isOtherPackage(pkg string) bool] *)
Definition isOtherPackage (pkg : string) : bool :=
  if bool_decide (pkg = P_Path (outputPackage g)) then false
  else if HasSuffix pkg (quote ++ P_Path (outputPackage g) ++ quote) then false
  else true.

(** [func (g *Generator) Imports] (its context argument is not used), given
    the lines [g.ImportTracker.ImportLines()] returns. *)
Definition Imports (importLines : list string) : list string :=
  let imports :=
    fold_left
      (fun (imports : list string) importLine =>
         if isOtherPackage importLine then (imports ++ [importLine])%list else imports)
      importLines [] in
  fold_left (fun (imports : list string) importLine => (imports ++ [importLine])%list)
    (extractDocFileTag (ExtraImportsTagName (G_Options g))) imports.

End Driver.

(** ** Looking for manual conversion functions *)

Section Discovery.

(** The tracker's method [findManualConversionFunctions] is declared outside
    generator.go.  It scans one package and records what it finds in the
    tracker; [Scanned] stands for everything it may change (the tracker, the
    context), [scan] for the method, and [fmtErrorf] for [fmt.Errorf]. *)
Variable Scanned : Type.
Variable scan : string -> Scanned -> list error * Scanned.
Variable fmtErrorf : string -> error.

(** The message built at lines 113-116. *)
Definition scanErrorMessage (packagePath : string) (errors : list error) : string :=
  fold_left (fun errMsg err => errMsg ++ "\n" ++ err) errors
    ("Errors when looking for manual conversion functions in " ++ packagePath ++ ":").

(** [func findManualConversionFunctions(context *generator.Context, tracker
    *ManualConversionsTracker, packagePaths []string) error] *)
Fixpoint findManualConversionFunctions (packagePaths : list string) (st : Scanned)
    : option error * Scanned :=
  match packagePaths with
  | [] => (None, st)
  | packagePath :: rest =>
      let '(errors, st') := scan packagePath st in
      if negb (bool_decide (List.length errors = 0))
      then (Some (fmtErrorf (scanErrorMessage packagePath errors)), st')
      else findManualConversionFunctions rest st'
  end.

(** The state after scanning the packages one after the other. *)
Definition scanAll (packagePaths : list string) (st : Scanned) : Scanned :=
  fold_left (fun st packagePath => (scan packagePath st).2) packagePaths st.

End Discovery.

(** ** The converter package (command line) *)

(** The generator's [Options], under the name the converter package
    imports them by. *)
Abbreviation generator_Options := Options.
Abbreviation generator_mkOptions := mkOptions.

Module converter.

(** [converter.Options], without [ExtraGenerators]. *)
Record Options : Type := mkOptions {
  GeneratorOptions : generator_Options;
  OutputFileBaseName : string;
  BasePeerPackages : list string
}.

(** [customCLIArgs] *)
Record customCLIArgs : Type := mkCLIArgs {
  noUnsafeConversions : bool;
  tagName : string;
  functionTagName : string;
  peerPackagesTagName : string;
  basePeerPackages : list string;
  noPublicConversionFunctionOnError : bool
}.

Section Handlers.

(** [fmt.Errorf] on a format without operands, and the method [String] of
    gengo's [types.Type]. *)
Variable fmtErrorf : string -> error.
Variable TypeString : Ty -> string.

(** [func ErrorMissingFieldHandler(inVar, outVar generator.NamedVariable,
    member *types.Member, sw *gengogenerator.SnippetWriter) error] *)
Definition ErrorMissingFieldHandler (inVar outVar : NamedVariable) (member : Member)
    : Handled :=
  ([mkSnippet ("// WARNING: in." ++ M_Name member
                 ++ " requires manual conversion: does not exist in peer-type\n") NoArgs],
   Some (fmtErrorf ("field " ++ M_Name member ++ " requires manual conversion"))).

(** [func ErrorInconvertibleFieldsHandler(inVar, outVar generator.NamedVariable,
    inMember, outMember *types.Member, sw *gengogenerator.SnippetWriter) error] *)
Definition ErrorInconvertibleFieldsHandler (inVar outVar : NamedVariable)
    (inMember outMember : Member) : Handled :=
  ([mkSnippet ("// WARNING: in." ++ M_Name inMember
                 ++ " requires manual conversion: inconvertible types ("
                 ++ TypeString (M_Type inMember) ++ " vs "
                 ++ TypeString (M_Type outMember) ++ ")\n") NoArgs],
   Some (fmtErrorf ("field " ++ M_Name inMember ++ " requires manual conversion"))).

(** [func (ca *customCLIArgs) populateOptions(options *Options)], returning
    the options it leaves behind. *)
Definition populateOptions (ca : customCLIArgs) (options : Options) : Options :=
  let o := GeneratorOptions options in
  let o :=
    if noUnsafeConversions ca then
      generator_mkOptions (O_ManualConversionsTracker o) true (TagName o)
        (FunctionTagName o) (PeerPackagesTagName o) (ExtraImportsTagName o)
        (MissingFieldsHandler o) (InconvertibleFieldsHandler o)
        (UnsupportedTypesHandler o) (ExternalConversionsHandler o)
    else o in
  let o :=
    if negb (bool_decide (tagName ca = "")) then
      generator_mkOptions (O_ManualConversionsTracker o) (NoUnsafeConversions o)
        (tagName ca) (FunctionTagName o) (PeerPackagesTagName o) (ExtraImportsTagName o)
        (MissingFieldsHandler o) (InconvertibleFieldsHandler o)
        (UnsupportedTypesHandler o) (ExternalConversionsHandler o)
    else o in
  let o :=
    if negb (bool_decide (functionTagName ca = "")) then
      generator_mkOptions (O_ManualConversionsTracker o) (NoUnsafeConversions o)
        (TagName o) (functionTagName ca) (PeerPackagesTagName o) (ExtraImportsTagName o)
        (MissingFieldsHandler o) (InconvertibleFieldsHandler o)
        (UnsupportedTypesHandler o) (ExternalConversionsHandler o)
    else o in
  let o :=
    if negb (bool_decide (peerPackagesTagName ca = "")) then
      generator_mkOptions (O_ManualConversionsTracker o) (NoUnsafeConversions o)
        (TagName o) (FunctionTagName o) (peerPackagesTagName ca) (ExtraImportsTagName o)
        (MissingFieldsHandler o) (InconvertibleFieldsHandler o)
        (UnsupportedTypesHandler o) (ExternalConversionsHandler o)
    else o in
  let base :=
    if negb (bool_decide (List.length (basePeerPackages ca) = 0))
    then basePeerPackages ca else BasePeerPackages options in
  let o :=
    if noPublicConversionFunctionOnError ca then
      generator_mkOptions (O_ManualConversionsTracker o) (NoUnsafeConversions o)
        (TagName o) (FunctionTagName o) (PeerPackagesTagName o) (ExtraImportsTagName o)
        (Some ErrorMissingFieldHandler) (Some ErrorInconvertibleFieldsHandler)
        (UnsupportedTypesHandler o) (ExternalConversionsHandler o)
    else o in
  mkOptions o (OutputFileBaseName options) base.

End Handlers.

End converter.

(** ** Notions used by the further properties *)

(** No extension handler is configured. *)
Definition noHandlers (g : Generator) : Prop :=
  MissingFieldsHandler (G_Options g) = None
  /\ InconvertibleFieldsHandler (G_Options g) = None
  /\ UnsupportedTypesHandler (G_Options g) = None
  /\ ExternalConversionsHandler (G_Options g) = None.

(** A computation that, when it returns errors, returns exactly [errors]. *)
Definition yields (errors : list error) (m : Gen (list error)) : Prop :=
  forall s errors' s', m s = Returned (errors', s') -> errors' = errors.

(** A computation that, when it returns errors, has added at most one to
    [errors]. *)
Definition addsAtMostOne (errors : list error) (m : Gen (list error)) : Prop :=
  forall s errors' s',
    m s = Returned (errors', s') ->
    exists new, errors' = (errors ++ new)%list /\ (List.length new <= 1)%nat.

(** A log entry of severity Error. *)
Definition isError (entry : LogEntry) : bool :=
  match severity entry with
  | Error => true
  | _ => false
  end.

(** A computation that, when it returns, has only appended snippets and log
    entries, none of severity Error. *)
Definition quiet {A} (m : Gen A) : Prop :=
  forall s a s',
    m s = Returned (a, s') ->
    exists code entries, s' = extend s code entries /\ filter isError entries = [].

(** The character occurs in the string. *)
Fixpoint hasChar (c : ascii) (s : string) : bool :=
  match s with
  | EmptyString => false
  | String d s' => bool_decide (d = c) || hasChar c s'
  end.

(** [strings.Join(l, sep)] for a separator of one character. *)
Fixpoint Join (l : list string) (sep : ascii) : string :=
  match l with
  | [] => ""
  | [x] => x
  | x :: l' => x ++ String sep (Join l' sep)
  end.

(** The text of a list of snippets' templates, one after the other. *)
Definition templatesText (code : list Snippet) : string :=
  fold_right (fun snippet text => template snippet ++ text) "" code.

(** * Properties *)

(** ** The monad and the state *)

Lemma extend_nil (s : GenState) : extend s [] [] = s.
Proof. destruct s; unfold extend; simpl. by rewrite !app_nil_r. Qed.

Lemma extend_extend (s : GenState) c1 e1 c2 e2 :
  extend (extend s c1 e1) c2 e2 = extend s (c1 ++ c2) (e1 ++ e2).
Proof. unfold extend; simpl. by rewrite !app_assoc. Qed.

Lemma ret_run {A} (a : A) s : ret a s = Returned (a, s).
Proof. reflexivity. Qed.

Lemma Do_run fmt args s : Do fmt args s = Returned (tt, extend s [mkSnippet fmt args] []).
Proof. unfold Do, extend. by rewrite app_nil_r. Qed.

Lemma written_run code s : written code s = Returned (tt, extend s code []).
Proof. unfold written, extend. by rewrite app_nil_r. Qed.

Lemma logf_run lvl fmt ops s :
  logf lvl fmt ops s = Returned (tt, extend s [] [mkLogEntry lvl fmt ops]).
Proof. unfold logf, extend. by rewrite app_nil_r. Qed.

Lemma bind_run {A B} (m : Gen A) (k : A -> Gen B) s a s' :
  m s = Returned (a, s') -> bind m k s = k a s'.
Proof. intros E. unfold bind. by rewrite E. Qed.

Lemma bind_ret {A B} (a : A) (k : A -> Gen B) s : bind (ret a) k s = k a s.
Proof. reflexivity. Qed.

Lemma bind_Do {B} fmt args (k : unit -> Gen B) s :
  bind (Do fmt args) k s = k tt (extend s [mkSnippet fmt args] []).
Proof. apply bind_run, Do_run. Qed.

Lemma bind_written {B} code (k : unit -> Gen B) s :
  bind (written code) k s = k tt (extend s code []).
Proof. apply bind_run, written_run. Qed.

Lemma bind_logf {B} lvl fmt ops (k : unit -> Gen B) s :
  bind (logf lvl fmt ops) k s = k tt (extend s [] [mkLogEntry lvl fmt ops]).
Proof. apply bind_run, logf_run. Qed.

Lemma bind_bind {A B C} (m : Gen A) (k : A -> Gen B) (k' : B -> Gen C) s :
  bind (bind m k) k' s = bind m (fun a => bind (k a) k') s.
Proof. unfold bind. destruct (m s) as [[a s']| |]; reflexivity. Qed.

Lemma bind_if {A B} (b : bool) (m1 m2 : Gen A) (k : A -> Gen B) s :
  bind (if b then m1 else m2) k s = if b then bind m1 k s else bind m2 k s.
Proof. by destruct b. Qed.

Lemma bind_ext {A B} (m : Gen A) (k1 k2 : A -> Gen B) s :
  (forall a s', k1 a s' = k2 a s') -> bind m k1 s = bind m k2 s.
Proof. intros E. unfold bind. destruct (m s) as [[a s']| |]; auto. Qed.

(** Rewriting a run of the monad until a value or a stuck call shows. *)
Ltac gen_run :=
  repeat first
    [ rewrite bind_bind
    | rewrite bind_Do
    | rewrite bind_written
    | rewrite bind_logf
    | rewrite bind_ret
    | rewrite Do_run
    | rewrite written_run
    | rewrite logf_run
    | rewrite ret_run
    | rewrite extend_extend
    | progress unfold V5Infof, Warningf, Errorf
    | progress simpl app ].

(** ** Every generator only ever appends *)

Lemma steady_ret {A} (a : A) : steady (ret a).
Proof. intros s. exists [], []. by rewrite extend_nil. Qed.

Lemma steady_Do fmt args : steady (Do fmt args).
Proof. intros s. rewrite Do_run. eauto. Qed.

Lemma steady_written code : steady (written code).
Proof. intros s. rewrite written_run. eauto. Qed.

Lemma steady_logf lvl fmt ops : steady (logf lvl fmt ops).
Proof. intros s. rewrite logf_run. eauto. Qed.

Lemma steady_deref {A} (p : option A) : steady (deref p).
Proof. destruct p; simpl; [apply steady_ret | by intros s]. Qed.

Lemma steady_bind {A B} (m : Gen A) (k : A -> Gen B) :
  steady m -> (forall a, steady (k a)) -> steady (bind m k).
Proof.
  intros Hm Hk s. unfold bind. specialize (Hm s).
  destruct (m s) as [[a s']| |]; [|done..].
  destruct Hm as (c & e & ->). specialize (Hk a (extend s c e)).
  destruct (k a (extend s c e)) as [[b s'']| |]; [|done..].
  destruct Hk as (c' & e' & ->). rewrite extend_extend. eauto.
Qed.

Lemma steady_forRange {A B} (body : B -> A -> Gen B) (l : list A) :
  (forall acc x, steady (body acc x)) -> forall acc, steady (forRange body l acc).
Proof.
  intros Hb. induction l as [|x l IH]; intros acc; simpl.
  - apply steady_ret.
  - apply steady_bind; auto.
Qed.

Ltac steady_step :=
  match goal with
  | |- steady (bind _ _) => apply steady_bind; [|intros ?]
  | |- steady (ret _) => apply steady_ret
  | |- steady (Do _ _) => apply steady_Do
  | |- steady (written _) => apply steady_written
  | |- steady (logf _ _ _) => apply steady_logf
  | |- steady (V5Infof _ _) => apply steady_logf
  | |- steady (Warningf _ _) => apply steady_logf
  | |- steady (Errorf _ _) => apply steady_logf
  | |- steady (deref _) => apply steady_deref
  | |- steady (forRange _ _ _) => apply steady_forRange; intros ? ?
  | |- steady (if ?b then _ else _) => destruct b
  | |- steady (match ?x with _ => _ end) => destruct x
  end.

Ltac steady_tac := repeat steady_step.

Section Steady.

Variable H : Helpers.
Variable g : Generator.

Lemma steady_signature inType outType include :
  steady (writeConversionFunctionSignature H g inType outType include).
Proof. unfold writeConversionFunctionSignature. steady_tac. Qed.

Lemma steady_convertibleOnlyWithinPackage inType outType :
  steady (convertibleOnlyWithinPackage H g inType outType).
Proof. unfold convertibleOnlyWithinPackage. steady_tac. Qed.

Lemma steady_manualOrInternalCall inElem outElem operands :
  steady (manualOrInternalCall H g inElem outElem operands).
Proof.
  unfold manualOrInternalCall. steady_tac.
  all: try apply steady_convertibleOnlyWithinPackage.
Qed.

Lemma steady_doBuiltin inType outType : steady (doBuiltin inType outType).
Proof. unfold doBuiltin. steady_tac. Qed.

Lemma steady_doUnknown inType outType : steady (doUnknown g inType outType).
Proof. unfold doUnknown. steady_tac. Qed.

Lemma steady_doMap inType outType : steady (doMap H g inType outType).
Proof.
  unfold doMap. steady_tac.
  all: try apply steady_manualOrInternalCall.
Qed.

Lemma steady_doSlice inType outType : steady (doSlice H g inType outType).
Proof.
  unfold doSlice, sameBuiltinElem. steady_tac.
  all: try apply steady_manualOrInternalCall.
Qed.

Lemma steady_doPointer inType outType : steady (doPointer H g inType outType).
Proof.
  unfold doPointer. steady_tac.
  all: try apply steady_manualOrInternalCall.
Qed.

End Steady.

(** ** Records, and the depth of [generateFor] *)

Section SteadyRecords.

Variable H : Helpers.
Variable g : Generator.
Variable self : Ty -> Ty -> Gen (list error).
Hypothesis steady_self :
  forall a b, isContainer (T_Kind a) = true -> steady (self a b).

Lemma steady_callExternal inType outType inMT outMT inMember outMember errors :
  steady (callExternalConversionsHandlerForStructField g inType outType inMT outMT
            inMember outMember errors).
Proof. unfold callExternalConversionsHandlerForStructField. steady_tac. Qed.

Lemma steady_internalOrExternal inType outType inMT outMT inMember outMember args errors :
  steady (internalOrExternal H g inType outType inMT outMT inMember outMember args errors).
Proof.
  unfold internalOrExternal. apply steady_bind.
  - apply steady_convertibleOnlyWithinPackage.
  - intros []; steady_tac. apply steady_callExternal.
Qed.

Lemma steady_convertMember inType outType inMT outMT inMember outMember args errors :
  steady (convertMember H g self inType outType inMT outMT inMember outMember args errors).
Proof using steady_self.
  unfold convertMember.
  destruct (negb _); [steady_tac|].
  destruct (T_Kind inMT) eqn:K;
    repeat first
      [ apply steady_internalOrExternal
      | apply steady_self; rewrite K; reflexivity
      | steady_step ].
Qed.

Lemma steady_manualOrConvert inType outType inMT outMT inMember outMember args errors :
  steady (manualOrConvert H g self inType outType inMT outMT inMember outMember args errors).
Proof using steady_self.
  unfold manualOrConvert.
  repeat first [ apply steady_convertMember | steady_step ].
Qed.

Lemma steady_doStructMember inType outType errors inMember :
  steady (doStructMember H g self inType outType errors inMember).
Proof using steady_self.
  unfold doStructMember, convertFoundMember.
  repeat first [ apply steady_manualOrConvert | steady_step ].
Qed.

Lemma steady_doStruct inType outType : steady (doStruct H g self inType outType).
Proof using steady_self.
  unfold doStruct. apply steady_forRange. intros. apply steady_doStructMember.
Qed.

End SteadyRecords.

Section Depth.

Variable H : Helpers.
Variable g : Generator.

(** On a container kind [generateFor] does not call itself: one unit of
    fuel is enough. *)
Lemma generateFor_container n inType outType s :
  isContainer (T_Kind inType) = true ->
  generateFor H g (S n) inType outType s = generateFor H g 1 inType outType s.
Proof.
  intros K. simpl. unfold selectHandler.
  destruct (T_Kind inType); try discriminate K; reflexivity.
Qed.

Lemma steady_generateFor_container n inType outType :
  isContainer (T_Kind inType) = true -> steady (generateFor H g (S n) inType outType).
Proof.
  intros K. simpl. apply steady_bind; [apply steady_logf|intros _].
  unfold selectHandler.
  destruct (T_Kind inType); try discriminate K; simpl.
  - apply steady_doMap.
  - apply steady_doPointer.
  - apply steady_doSlice.
Qed.

(** With two units of fuel, [generateFor] never runs out. *)
Lemma steady_generateFor n inType outType :
  steady (generateFor H g (S (S n)) inType outType).
Proof.
  cbn [generateFor]. apply steady_bind; [apply steady_logf|intros _].
  destruct (selectHandler inType outType); cbn [handler].
  - apply steady_doBuiltin.
  - apply steady_doMap.
  - apply steady_doSlice.
  - apply steady_doStruct. intros a b K. by apply steady_generateFor_container.
  - apply steady_doPointer.
  - apply steady_doUnknown.
  - apply steady_doUnknown.
Qed.

(** [doStruct] looks at the [generateFor] it is given on container kinds
    only. *)
Lemma convertMember_self (self1 self2 : Ty -> Ty -> Gen (list error))
    inType outType inMT outMT inMember outMember args errors s :
  (forall a b s', isContainer (T_Kind a) = true -> self1 a b s' = self2 a b s') ->
  convertMember H g self1 inType outType inMT outMT inMember outMember args errors s
  = convertMember H g self2 inType outType inMT outMT inMember outMember args errors s.
Proof.
  intros Hself. unfold convertMember.
  destruct (negb _); [done|].
  destruct (T_Kind inMT) eqn:K; try done.
  all: destruct (isDirectlyAssignable H (Some inMT) (Some outMT)); [done|].
  all: rewrite !bind_Do; unfold bind at 1 3.
  all: by rewrite Hself by (by rewrite K).
Qed.

Lemma doStructMember_self (self1 self2 : Ty -> Ty -> Gen (list error))
    inType outType errors inMember s :
  (forall a b s', isContainer (T_Kind a) = true -> self1 a b s' = self2 a b s') ->
  doStructMember H g self1 inType outType errors inMember s
  = doStructMember H g self2 inType outType errors inMember s.
Proof.
  intros Hself. unfold doStructMember, convertFoundMember, manualOrConvert.
  repeat match goal with
         | |- context [if ?b then _ else _] => destruct b
         | |- context [match ?x with Some _ => _ | None => _ end] => destruct x
         end.
  all: try reflexivity.
  all: rewrite ?bind_logf; by apply convertMember_self.
Qed.

Lemma forRange_ext {A B} (body1 body2 : B -> A -> Gen B) (l : list A) :
  (forall acc x s, body1 acc x s = body2 acc x s) ->
  forall acc s, forRange body1 l acc s = forRange body2 l acc s.
Proof.
  intros Hb. induction l as [|x l IH]; intros acc s; simpl; [done|].
  unfold bind. rewrite Hb. destruct (body2 acc x s) as [[acc' s']| |]; auto.
Qed.

(** More than two units of fuel change nothing. *)
Lemma generateFor_fuel n inType outType s :
  generateFor H g (S (S n)) inType outType s = generateFor H g 2 inType outType s.
Proof.
  cbn [generateFor]. apply bind_ext. intros _ s'.
  destruct (selectHandler inType outType); cbn [handler]; try reflexivity.
  unfold doStruct. apply forRange_ext. intros acc x s0.
  apply doStructMember_self. intros a b s1 K.
  change (generateFor H g (S n) a b s1 = generateFor H g 1 a b s1).
  by apply generateFor_container.
Qed.


End Depth.

(** ** [generateConversion] *)

Section Conversion.

Variable H : Helpers.
Variable g : Generator.

Lemma extraArguments_run (include : bool) (l : list NamedVariable) s :
  forRange
    (fun (_ : unit) namedArgument =>
       Do (", " ++ NV_Name namedArgument) NoArgs;;
       (if include
        then Do (" $.|" ++ rawNamer ++ "$") (TypeArg (NV_Type namedArgument))
        else ret tt)) l tt s
  = Returned (tt, extend s
      (flat_map
         (fun namedArgument =>
            mkSnippet (", " ++ NV_Name namedArgument) NoArgs
            :: (if include
                then [mkSnippet (" $.|" ++ rawNamer ++ "$") (TypeArg (NV_Type namedArgument))]
                else [])) l) []).
Proof.
  revert s. induction l as [|x l IH]; intros s; simpl.
  - by rewrite ret_run, extend_nil.
  - destruct include; gen_run; rewrite IH; gen_run; reflexivity.
Qed.

Lemma signature_run inType outType include s :
  writeConversionFunctionSignature H g inType outType include s
  = Returned (tt, extend s (signatureText H g inType outType include) []).
Proof.
  unfold writeConversionFunctionSignature, signatureText.
  destruct include; gen_run.
  - erewrite bind_run by apply (extraArguments_run true). gen_run.
    by rewrite <- ?app_assoc.
  - erewrite bind_run by apply (extraArguments_run false). gen_run.
    by rewrite <- ?app_assoc.
Qed.

Lemma publicWrapper_run inType outType s :
  publicWrapper H g inType outType s
  = Returned (tt, extend s (publicWrapperText H g inType outType) []).
Proof.
  unfold publicWrapper, publicWrapperText. gen_run.
  erewrite bind_run by apply signature_run. gen_run.
  erewrite bind_run by apply signature_run. gen_run.
  by rewrite <- ?app_assoc.
Qed.

Lemma errorLog_run (errors : list error) s :
  forRange (fun (_ : unit) err => Errorf "      - %v" [OError err]) errors tt s
  = Returned (tt, extend s []
      (map (fun err => mkLogEntry Error "      - %v" [OError err]) errors)).
Proof.
  revert s. induction errors as [|e l IH]; intros s; simpl.
  - by rewrite ret_run, extend_nil.
  - gen_run. rewrite IH. by gen_run.
Qed.

(** What [generateConversion] does around the body [generateFor] writes. *)
Lemma generateConversion_run fuel inType outType s :
  generateConversion H g fuel inType outType s =
  match generateFor H g fuel inType outType
          (extend s (privateHeader H g inType outType) []) with
  | Returned (errors, s1) =>
      Returned (tt,
        extend s1
          (privateFooter
           ++ (if publicEligible H g inType outType errors
               then publicWrapperText H g inType outType else []))
          (if bool_decide (is_Some (preexists g (Some inType) (Some outType)))
              || (noPublicFun H g inType || noPublicFun H g outType)
              || bool_decide (errors = [])
           then []
           else
             mkLogEntry Error
               "Warning: could not find nor generate a final Conversion function for %v -> %v"
               [OType (Some inType); OType (Some outType)]
             :: mkLogEntry Error "  you need to add manual conversions:" []
             :: map (fun err => mkLogEntry Error "      - %v" [OError err]) errors))
  | NilDereference => NilDereference
  | OutOfFuel => OutOfFuel
  end.
Proof.
  unfold generateConversion, privateHeader, publicEligible. gen_run.
  erewrite bind_run by apply signature_run. gen_run.
  unfold bind at 1.
  destruct (generateFor _ _ _ _ _ _) as [[errors s1]| |]; [|done..].
  gen_run.
  destruct (bool_decide (is_Some _)); simpl; [by gen_run|].
  destruct (noPublicFun H g inType); simpl; [by gen_run|].
  destruct (noPublicFun H g outType); simpl; [by gen_run|].
  destruct errors as [|e errors]; simpl.
  - rewrite publicWrapper_run. by gen_run.
  - gen_run. rewrite errorLog_run. by gen_run.
Qed.

End Conversion.

(** C1.  [generateConversion] opens the private function, lets [generateFor]
    write its body and closes it, whatever field errors the body reports;
    after the closing it writes the public wrapper exactly when the pair is
    eligible, that is, when no manual conversion preexists for the pair,
    neither type is tagged no-public and the body reported no error.  The
    body is only ever appended to the opening, and two units of fuel are
    enough for [generateFor] to finish. *)
Theorem generateConversion_private_always_public_iff_eligible
    (H : Helpers) (g : Generator) (n : nat) (inType outType : Ty) (s : GenState) :
  (forall errors,
     publicEligible H g inType outType errors = true <->
     preexists g (Some inType) (Some outType) = None
     /\ noPublicFun H g inType = false /\ noPublicFun H g outType = false
     /\ errors = [])
  /\ publicWrapperText H g inType outType <> []
  /\ match generateFor H g (S (S n)) inType outType
             (extend s (privateHeader H g inType outType) []) with
     | Returned (errors, s1) =>
         exists (body : list Snippet) (s2 : GenState),
           sw s1 = (sw s ++ privateHeader H g inType outType ++ body)%list
           /\ generateConversion H g (S (S n)) inType outType s = Returned (tt, s2)
           /\ sw s2 =
                (sw s ++ privateHeader H g inType outType ++ body ++ privateFooter
                 ++ (if publicEligible H g inType outType errors
                     then publicWrapperText H g inType outType else []))%list
     | NilDereference =>
         generateConversion H g (S (S n)) inType outType s = NilDereference
     | OutOfFuel => False
     end.
Proof.
  split; [|split].
  - intros errors. unfold publicEligible.
    rewrite !andb_true_iff, !negb_true_iff, !bool_decide_eq_false, bool_decide_eq_true.
    rewrite <- eq_None_not_Some. tauto.
  - discriminate.
  - rewrite generateConversion_run.
    pose proof (steady_generateFor H g n inType outType
                  (extend s (privateHeader H g inType outType) [])) as St.
    destruct (generateFor _ _ _ _ _ _) as [[errors s1]| |]; [|done..].
    destruct St as (body & entries & ->).
    eexists body, _. split; [|split; [reflexivity|]].
    + unfold extend; cbn [sw]. by rewrite <- app_assoc.
    + unfold extend; cbn [sw]. by rewrite <- !app_assoc.
Qed.

(** ** The dispatch of [generateFor] *)

(** C4, as the code has it.  The handler [generateFor] picks is the one the
    table gives for the kind of the source type; the target type has no
    part in the choice, and every kind has a handler. *)
Theorem generateFor_dispatches_on_source_kind
    (H : Helpers) (g : Generator) (n : nat) (inType outType : Ty) :
  selectHandler inType outType = spec_dispatch (T_Kind inType)
  /\ (forall outType', selectHandler inType outType' = selectHandler inType outType)
  /\ forall s,
       generateFor H g (S n) inType outType s =
       (V5Infof "generating %v -> %v" [OType (Some inType); OType (Some outType)];;
        handler H g (generateFor H g n) (spec_dispatch (T_Kind inType)) inType outType) s.
Proof.
  split; [|split].
  - unfold selectHandler, spec_dispatch. by destruct (T_Kind inType).
  - reflexivity.
  - intros s. cbn [generateFor]. unfold selectHandler, spec_dispatch.
    by destruct (T_Kind inType).
Qed.

(** C4, counterexample.  A Builtin source with a Struct target: the table
    applied to the kind of the target gives [doStruct], the code runs
    [doBuiltin] and writes a conversion of the value. *)
Lemma generateFor_not_on_target_kind :
  T_Kind Sample.intT = Builtin /\ T_Kind Sample.aFoo = Struct
  /\ selectHandler Sample.intT Sample.aFoo <> spec_dispatch (T_Kind Sample.aFoo)
  /\ generateFor Sample.helpers (Sample.generatorOf [] None) 2 Sample.intT Sample.aFoo
       Sample.start
     = Returned ([],
         mkGenState
           [mkSnippet ("*out = $.|" ++ rawNamer ++ "$(*in)\n") (TypeArg (Some Sample.aFoo))]
           [mkLogEntry InfoV5 "generating %v -> %v"
              [OType (Some Sample.intT); OType (Some Sample.aFoo)]]
           ∅).
Proof. repeat split. discriminate. Qed.

(** ** Slices and maps *)




(** C6, as the code has it.  When the key types are not directly
    assignable, [doMap] writes the allocation and a loop without a body that
    carries a FIXME comment; it logs nothing and returns no error. *)
Theorem doMap_unassignable_keys_stub_without_log
    (H : Helpers) (g : Generator) (inType outType : Ty) (s : GenState) :
  isDirectlyAssignable H (T_Key inType) (T_Key outType) = false ->
  doMap H g inType outType s
  = Returned ([],
      mkGenState
        (sw s ++ [mkSnippet ("*out = make($.|" ++ rawNamer ++ "$, len(*in))\n")
                    (TypeArg (Some outType));
                  mkSnippet "for range *in {\n" NoArgs;
                  mkSnippet ("// FIXME: Converting unassignable keys unsupported $.|"
                               ++ rawNamer ++ "$\n") (TypeArg (T_Key inType));
                  mkSnippet "}\n" NoArgs])
        (klog s) (peerTypes s)).
Proof.
  intros A. unfold doMap. rewrite A. gen_run. unfold extend. by rewrite app_nil_r.
Qed.

Lemma doMap_unassignable_keys_witness :
  doMap Sample.helpers (Sample.generatorOf [] None) Sample.aByKey Sample.bByKey Sample.start
  = Returned ([],
      mkGenState
        [mkSnippet ("*out = make($.|" ++ rawNamer ++ "$, len(*in))\n")
           (TypeArg (Some Sample.bByKey));
         mkSnippet "for range *in {\n" NoArgs;
         mkSnippet ("// FIXME: Converting unassignable keys unsupported $.|"
                      ++ rawNamer ++ "$\n") (TypeArg (Some Sample.aKey));
         mkSnippet "}\n" NoArgs] [] ∅).
Proof.
  apply (doMap_unassignable_keys_stub_without_log Sample.helpers
           (Sample.generatorOf [] None) Sample.aByKey Sample.bByKey Sample.start).
  reflexivity.
Defined.

(** C6, counterexample.  [map[a.Key]string] to [map[b.Key]string]: the keys
    are not directly assignable, the stub is written, and the log stays
    empty: no warning is logged. *)
Lemma doMap_unassignable_keys_logs_no_warning :
  T_Kind Sample.aByKey = Map /\ T_Kind Sample.bByKey = Map
  /\ isDirectlyAssignable Sample.helpers (T_Key Sample.aByKey) (T_Key Sample.bByKey) = false
  /\ exists s',
       doMap Sample.helpers (Sample.generatorOf [] None) Sample.aByKey Sample.bByKey
         Sample.start
       = Returned ([], s')
       /\ klog s' = []
       /\ ~ exists entry, In entry (klog s') /\ severity entry = Warning.
Proof.
  repeat split. eexists. split; [by compute|]. split; [reflexivity|].
  intros (entry & [] & _).
Qed.

(** ** The cross-package policy *)

(** C9, as the code has it.  On two types [convertibleOnlyWithinPackage]
    always answers, writing nothing, and it answers [true] exactly when the
    side it examines (the source if that is in the types package, else the
    target) is in the types package, is not opted out and is a Struct, and
    the name of the other side is not private.  The kind of the other side
    is not examined. *)
Theorem convertibleOnlyWithinPackage_true_iff
    (H : Helpers) (g : Generator) (inType outType : Ty) (s : GenState) :
  exists (b : bool) (s' : GenState),
    convertibleOnlyWithinPackage H g (Some inType) (Some outType) s = Returned (b, s')
    /\ sw s' = sw s
    /\ (b = true <->
        N_Package (T_Name (homeSide g inType outType).1) = P_Path (typesPackage g)
        /\ optedOut H g (OfType (homeSide g inType outType).1) = false
        /\ T_Kind (homeSide g inType outType).1 = Struct
        /\ IsPrivateGoName H (N_Name (T_Name (homeSide g inType outType).2)) = false).
Proof.
  unfold convertibleOnlyWithinPackage, homeSide. cbn [deref]. rewrite bind_ret.
  destruct (bool_decide (N_Package (T_Name inType) = P_Path (typesPackage g))) eqn:Ein;
    cbn [deref fst snd]; rewrite bind_ret.
  - rewrite Ein. cbn [negb]. apply bool_decide_eq_true in Ein.
    destruct (optedOut H g (OfType inType)) eqn:Eopt.
    + gen_run. eexists false, _. split; [reflexivity|]. split.
      * unfold extend; cbn [sw]. by rewrite app_nil_r.
      * split; [discriminate|]. intros (_ & ? & _). discriminate.
    + destruct (bool_decide (T_Kind inType = Struct)) eqn:Ek.
      * apply bool_decide_eq_true in Ek. cbn [deref]. rewrite bind_ret, ret_run.
        eexists _, s. split; [reflexivity|]. split; [done|].
        rewrite negb_true_iff. tauto.
      * apply bool_decide_eq_false in Ek. rewrite ret_run.
        eexists false, s. split; [reflexivity|]. split; [done|].
        split; [discriminate|]. tauto.
  - destruct (bool_decide (N_Package (T_Name outType) = P_Path (typesPackage g))) eqn:Eout;
      cbn [negb].
    + apply bool_decide_eq_true in Eout.
      destruct (optedOut H g (OfType outType)) eqn:Eopt.
      * gen_run. eexists false, _. split; [reflexivity|]. split.
        -- unfold extend; cbn [sw]. by rewrite app_nil_r.
        -- split; [discriminate|]. intros (_ & ? & _). discriminate.
      * destruct (bool_decide (T_Kind outType = Struct)) eqn:Ek.
        -- apply bool_decide_eq_true in Ek. cbn [deref]. rewrite bind_ret, ret_run.
           eexists _, s. split; [reflexivity|]. split; [done|].
           rewrite negb_true_iff. tauto.
        -- apply bool_decide_eq_false in Ek. rewrite ret_run.
           eexists false, s. split; [reflexivity|]. split; [done|].
           split; [discriminate|]. tauto.
    + apply bool_decide_eq_false in Eout. rewrite ret_run.
      eexists false, s. split; [reflexivity|]. split; [done|].
      split; [discriminate|]. tauto.
Qed.

(** C9, counterexample.  [a.Foo] is a Struct of the types package and is
    not opted out; its peer [b.Foo] is declared [type Foo string], an Alias
    with an exported name.  The internal call is permitted although the pair
    is not a pair of Structs. *)
Lemma convertibleOnlyWithinPackage_peer_not_struct :
  T_Kind Sample.aFoo = Struct /\ T_Kind Sample.bFooAlias = Alias
  /\ convertibleOnlyWithinPackage Sample.helpers (Sample.generatorOf [] None)
       (Some Sample.aFoo) (Some Sample.bFooAlias) Sample.start
     = Returned (true, Sample.start).
Proof. repeat split. Qed.

(** ** The peer resolver *)

Section Peers.

Variable H : Helpers.
Variable g : Generator.

Lemma searchPeerPackages_first context name pkgs t :
  searchPeerPackages context name pkgs = Some t <->
  exists (before : list string) (path : string) (after : list string),
    pkgs = (before ++ path :: after)%list
    /\ declaredIn context name path t
    /\ Forall (fun p => forall t', ~ declaredIn context name p t') before.
Proof.
  induction pkgs as [|p pkgs IH]; simpl.
  - split; [discriminate|]. intros (before & path & after & E & _).
    by destruct before.
  - destruct (C_Universe context !! p) as [pkg|] eqn:Ep.
    + unfold Has. destruct (P_Types pkg !! name) as [t0|] eqn:Et.
      * rewrite bool_decide_eq_true_2 by eauto. split.
        -- intros [= ->]. exists [], p, pkgs. repeat split; [|constructor].
           exists pkg. by split.
        -- intros (before & path & after & E & (pkg' & Ep' & Et') & Hb).
           destruct before as [|p' before]; simplify_eq/=.
           ++ congruence.
           ++ apply Forall_cons in Hb as [Hp _]. exfalso. apply (Hp t0).
              exists pkg. by split.
      * rewrite bool_decide_eq_false_2 by (intros [? ?]; discriminate).
        rewrite IH. split.
        -- intros (before & path & after & -> & Hd & Hb).
           exists (p :: before), path, after. repeat split; [done|].
           constructor; [|done]. intros t' (pkg' & Ep' & Et'). congruence.
        -- intros (before & path & after & E & Hd & Hb).
           destruct before as [|p' before]; simplify_eq/=.
           ++ destruct Hd as (pkg' & Ep' & Et'). congruence.
           ++ apply Forall_cons in Hb as [_ Hb]. eauto 6.
    + rewrite IH. split.
      * intros (before & path & after & -> & Hd & Hb).
        exists (p :: before), path, after. repeat split; [done|].
        constructor; [|done]. intros t' (pkg' & Ep' & _). congruence.
      * intros (before & path & after & E & Hd & Hb).
        destruct before as [|p' before]; simplify_eq/=.
        -- destruct Hd as (pkg' & Ep' & _). congruence.
        -- apply Forall_cons in Hb as [_ Hb]. eauto 6.
Qed.

Lemma searchPeerPackages_none context name pkgs :
  searchPeerPackages context name pkgs = None <->
  Forall (fun p => forall t', ~ declaredIn context name p t') pkgs.
Proof.
  induction pkgs as [|p pkgs IH]; simpl.
  - split; [constructor|done].
  - destruct (C_Universe context !! p) as [pkg|] eqn:Ep.
    + unfold Has. destruct (P_Types pkg !! name) as [t0|] eqn:Et.
      * rewrite bool_decide_eq_true_2 by eauto. split; [discriminate|].
        intros [Hp _]%Forall_cons. exfalso. apply (Hp t0). exists pkg. by split.
      * rewrite bool_decide_eq_false_2 by (intros [? ?]; discriminate).
        rewrite IH, Forall_cons. split; [|tauto]. intros Hb. split; [|done].
        intros t' (pkg' & Ep' & Et'). congruence.
    + rewrite IH, Forall_cons. split; [|tauto]. intros Hb. split; [|done].
      intros t' (pkg' & Ep' & _). congruence.
Qed.

(** The name searched for is the simple name, unless a [peerName] option
    with a name that is not empty overrides it. *)
Lemma peerNameOf_spec t :
  (peerNameOf H g t).1 =
  match hasTagOption H g (T_CommentLines t) "peerName" with
  | (true, name) => if bool_decide (name = "") then N_Name (T_Name t) else name
  | (false, _) => N_Name (T_Name t)
  end.
Proof.
  unfold peerNameOf.
  destruct (hasTagOption H g (T_CommentLines t) "peerName") as [[] name]; [|done].
  destruct name; reflexivity.
Qed.

(** A resolution that misses the cache searches and stores its result. *)
Lemma GetPeerTypeFor_miss context t s :
  peerTypes s !! N_Name (T_Name t) = None ->
  exists entries,
    GetPeerTypeFor H g context t s
    = Returned (searchPeerPackages context (peerNameOf H g t).1 (peerPackages g),
        mkGenState (sw s) (klog s ++ entries)
          (<[N_Name (T_Name t) :=
               searchPeerPackages context (peerNameOf H g t).1 (peerPackages g)]>
             (peerTypes s))).
Proof.
  intros Miss. unfold GetPeerTypeFor. rewrite Miss.
  destruct (peerNameOf H g t) as [peerName custom]. cbn [fst].
  destruct custom, (searchPeerPackages context peerName (peerPackages g)) as [peer|].
  all: gen_run; unfold setPeerType, bind, extend; cbn.
  all: rewrite ?bool_decide_eq_true_2 by eauto.
  all: rewrite ?bool_decide_eq_false_2 by (intros [? ?]; discriminate).
  all: cbn; rewrite ?app_nil_r.
  all: first [ by (exists []; rewrite app_nil_r)
             | by (eexists; rewrite <- ?app_assoc) ].
Qed.

(** A resolution that hits the cache returns the entry and changes
    nothing, whatever the universe, the generator and the annotations. *)
Lemma GetPeerTypeFor_hit context t s peer :
  peerTypes s !! N_Name (T_Name t) = Some peer ->
  GetPeerTypeFor H g context t s = Returned (peer, s).
Proof. intros Hit. unfold GetPeerTypeFor. by rewrite Hit. Qed.

End Peers.

(** C8.  A resolution that is not yet cached searches the peer packages in
    their declared order for the effective lookup name (the simple name,
    unless a [peerName] option gives another one) and takes the type of the
    first package that declares it, or nil when none does; it stores that
    result, nil included, under the simple name.  After it, resolving any
    type of the same simple name returns the stored result and changes
    nothing, whatever the universe, the packages and the annotations are
    then: no new search takes place. *)
Theorem GetPeerTypeFor_first_package_then_cached
    (H : Helpers) (g : Generator) (context : Context) (t : Ty) (s : GenState) :
  peerTypes s !! N_Name (T_Name t) = None ->
  (peerNameOf H g t).1 =
    match hasTagOption H g (T_CommentLines t) "peerName" with
    | (true, name) => if bool_decide (name = "") then N_Name (T_Name t) else name
    | (false, _) => N_Name (T_Name t)
    end
  /\ exists (peer : option Ty) (s1 : GenState),
       GetPeerTypeFor H g context t s = Returned (peer, s1)
       /\ sw s1 = sw s
       /\ (forall found,
             peer = Some found <->
             exists (before : list string) (path : string) (after : list string),
               peerPackages g = (before ++ path :: after)%list
               /\ declaredIn context (peerNameOf H g t).1 path found
               /\ Forall (fun p => forall t', ~ declaredIn context (peerNameOf H g t).1 p t')
                    before)
       /\ (peer = None <->
           Forall (fun p => forall t', ~ declaredIn context (peerNameOf H g t).1 p t')
             (peerPackages g))
       /\ peerTypes s1 = <[N_Name (T_Name t) := peer]> (peerTypes s)
       /\ forall H' g' context' t',
            N_Name (T_Name t') = N_Name (T_Name t) ->
            GetPeerTypeFor H' g' context' t' s1 = Returned (peer, s1).
Proof.
  intros Miss. split; [apply peerNameOf_spec|].
  destruct (GetPeerTypeFor_miss H g context t s Miss) as (entries & E).
  eexists _, _. split; [exact E|]. split; [done|].
  split; [intros found; apply searchPeerPackages_first|].
  split; [apply searchPeerPackages_none|]. split; [done|].
  intros H' g' context' t' En. apply GetPeerTypeFor_hit. cbn [peerTypes].
  rewrite En. apply lookup_insert_eq.
Qed.

Lemma GetPeerTypeFor_witness :
  exists (s1 : GenState),
    GetPeerTypeFor Sample.helpers (Sample.generatorOf [] None)
      (mkContext Sample.universe) Sample.aFoo Sample.start
    = Returned (Some Sample.bFoo, s1)
    /\ GetPeerTypeFor Sample.helpers (Sample.generatorOf [] None)
         (mkContext ∅) Sample.aFoo s1
       = Returned (Some Sample.bFoo, s1).
Proof.
  destruct (GetPeerTypeFor_first_package_then_cached Sample.helpers
              (Sample.generatorOf [] None) (mkContext Sample.universe) Sample.aFoo
              Sample.start eq_refl)
    as (_ & peer & s1 & E & _ & _ & _ & _ & Hcached).
  assert (peer = Some Sample.bFoo) as ->.
  { assert (GetPeerTypeFor Sample.helpers (Sample.generatorOf [] None)
              (mkContext Sample.universe) Sample.aFoo Sample.start
            = Returned (Some Sample.bFoo,
                mkGenState []
                  [mkLogEntry InfoV5 "Found peer type %s for input type %s"
                     [OType (Some Sample.bFoo); OType (Some Sample.aFoo)]]
                  (<["Foo" := Some Sample.bFoo]> ∅))) as E' by reflexivity.
    rewrite E' in E. by injection E. }
  exists s1. split; [exact E|]. by apply Hcached.
Defined.

(** ** The members of a record *)

Lemma unsafeTemplate_None k : unsafeTemplate k = None <-> isContainer k = false.
Proof. destruct k; simpl; split; congruence. Qed.

Lemma unsafeTemplate_Some k :
  is_Some (unsafeTemplate k) <-> k = Pointer \/ k = Map \/ k = Slice.
Proof.
  destruct k; simpl; split; eauto.
  all: try (intros [? [=]]).
  all: intros [?|[?|?]]; discriminate.
Qed.

Section Members.

Variable H : Helpers.
Variable g : Generator.
Variable self : Ty -> Ty -> Gen (list error).

Lemma doStructMember_found inType outType errors inMember outMember s :
  optedOut H g (OfMember inMember) = false ->
  findMember H outType (M_Name inMember) = Some outMember ->
  doStructMember H g self inType outType errors inMember s
  = convertFoundMember H g self inType outType inMember outMember errors s.
Proof. intros Eo Ef. unfold doStructMember. by rewrite Eo, Ef. Qed.

(** The unsafe fast path if there is one, else the manual conversion
    function and the per-kind logic. *)
Lemma convertFoundMember_run inType outType inMember outMember errors s :
  let inMT := topLevelCopy H CopiedIn (M_Type inMember) in
  let outMT := topLevelCopy H CopiedOut (M_Type outMember) in
  convertFoundMember H g self inType outType inMember outMember errors s
  = match fastPath g inMT outMT with
    | Some template =>
        Returned (errors,
          extend s [mkSnippet template (MapArgs (memberArgs H g inMember inMT outMT))] [])
    | None =>
        manualOrConvert H g self inType outType inMT outMT inMember outMember
          (memberArgs H g inMember inMT outMT) errors s
    end.
Proof.
  intros inMT outMT. unfold convertFoundMember, fastPath, memberArgs.
  fold inMT outMT. destruct (useUnsafeConversion g inMT outMT); [|done].
  destruct (unsafeTemplate (T_Kind inMT)); [|done]. by gen_run.
Qed.

Lemma fastPath_None inMT outMT :
  fastPath g inMT outMT = None <->
  useUnsafeConversion g inMT outMT = false \/ isContainer (T_Kind inMT) = false.
Proof.
  unfold fastPath. rewrite <- unsafeTemplate_None.
  destruct (useUnsafeConversion g inMT outMT); split; auto.
  intros [|]; [discriminate|done].
Qed.

End Members.

(** C2, as the code has it.  For a member that is converted (not opted
    out, present in the target) and whose declared types have a manual
    conversion function tagged drop: unless the unsafe fast path applies
    (the unsafe-conversion check approves the member's types and the kind is
    Pointer, Map or Slice), the loop body writes nothing, logs nothing and
    adds no error.  When the fast path applies it is written, and nothing
    else. *)
Theorem drop_tagged_member_skipped_after_fast_path
    (H : Helpers) (g : Generator) (self : Ty -> Ty -> Gen (list error))
    (inType outType : Ty) (errors : list error) (inMember outMember : Member)
    (function : Ty) (s : GenState) :
  optedOut H g (OfMember inMember) = false ->
  findMember H outType (M_Name inMember) = Some outMember ->
  preexists g (Some (M_Type inMember)) (Some (M_Type outMember)) = Some function ->
  functionHasTag H g function "drop" = true ->
  let inMT := topLevelCopy H CopiedIn (M_Type inMember) in
  let outMT := topLevelCopy H CopiedOut (M_Type outMember) in
  (fastPath g inMT outMT = None <->
   useUnsafeConversion g inMT outMT = false \/ isContainer (T_Kind inMT) = false)
  /\ doStructMember H g self inType outType errors inMember s
     = match fastPath g inMT outMT with
       | Some template =>
           Returned (errors,
             mkGenState
               (sw s ++ [mkSnippet template (MapArgs (memberArgs H g inMember inMT outMT))])
               (klog s) (peerTypes s))
       | None => Returned (errors, s)
       end.
Proof.
  intros Eo Ef Ep Ed inMT outMT. split; [apply fastPath_None|].
  rewrite (doStructMember_found H g self _ _ _ _ outMember) by done.
  rewrite convertFoundMember_run. fold inMT outMT.
  destruct (fastPath g inMT outMT).
  - unfold extend. by rewrite app_nil_r.
  - unfold manualOrConvert. by rewrite Ep, Ed.
Qed.

Lemma drop_tagged_member_witness :
  doStructMember Sample.helpers
    (Sample.generatorOf [(Interned 3, Interned 3, Sample.convertNamesDropOnly)] None)
    (fun _ _ => ret []) Sample.aTags Sample.bTags []
    (Sample.field "Names" [] Sample.sliceOfString) Sample.start
  = Returned ([], Sample.start).
Proof.
  apply (drop_tagged_member_skipped_after_fast_path Sample.helpers
           (Sample.generatorOf [(Interned 3, Interned 3, Sample.convertNamesDropOnly)] None)
           (fun _ _ => ret []) Sample.aTags Sample.bTags []
           (Sample.field "Names" [] Sample.sliceOfString)
           (Sample.field "Names" [] Sample.sliceOfString)
           Sample.convertNamesDropOnly Sample.start); reflexivity.
Defined.

(** C2, counterexample.  The member [Names []string] has a manual
    conversion function tagged drop (and copy-only, so that the arbitrator
    does not exclude the pair).  The member's types are layout-equivalent
    and of kind Slice: the generator writes the raw reinterpretation of the
    member. *)
Lemma drop_tagged_member_gets_unsafe_fast_path :
  let g := Sample.generatorOf [(Interned 3, Interned 3, Sample.convertNames)] None in
  preexists g (Some Sample.sliceOfString) (Some Sample.sliceOfString)
  = Some Sample.convertNames
  /\ functionHasTag Sample.helpers g Sample.convertNames "drop" = true
  /\ exists s',
       generateFor Sample.helpers g 2 Sample.aTags Sample.bTags Sample.start
       = Returned ([], s')
       /\ map template (sw s')
          = ["out.$.name$ = *(*$.outType|ConversionGenerator_raw$)($.Pointer|ConversionGenerator_raw$(&in.$.name$))\n"].
Proof.
  intros g. repeat split. eexists. split; [by compute|]. reflexivity.
Qed.

(** C3, as the code has it.  For a member that is converted, past the
    unsafe fast path, whose declared types have a manual conversion function
    tagged copy-only and not drop: the function is called exactly when the
    member's types have no fast conversion ([isFastConversion] is false);
    when they have one, the function is skipped, which is logged, and the
    member goes through the kind check and the per-kind logic. *)
Theorem copy_only_function_called_unless_fast_conversion
    (H : Helpers) (g : Generator) (self : Ty -> Ty -> Gen (list error))
    (inType outType : Ty) (errors : list error) (inMember outMember : Member)
    (function : Ty) (s : GenState) :
  optedOut H g (OfMember inMember) = false ->
  findMember H outType (M_Name inMember) = Some outMember ->
  preexists g (Some (M_Type inMember)) (Some (M_Type outMember)) = Some function ->
  functionHasTag H g function "drop" = false ->
  functionHasTag H g function "copy-only" = true ->
  let inMT := topLevelCopy H CopiedIn (M_Type inMember) in
  let outMT := topLevelCopy H CopiedOut (M_Type outMember) in
  fastPath g inMT outMT = None ->
  doStructMember H g self inType outType errors inMember s
  = if isFastConversion H inMT outMT then
      (V5Infof "Skipped function %s because it is copy-only and we can use direct assignment"
         [OName (T_Name function)];;
       convertMember H g self inType outType inMT outMT inMember outMember
         (memberArgs H g inMember inMT outMT) errors) s
    else
      Returned (errors,
        mkGenState (sw s ++ manualCall g function (memberArgs H g inMember inMT outMT))
          (klog s) (peerTypes s)).
Proof.
  intros Eo Ef Ep Ed Ec inMT outMT Efp.
  rewrite (doStructMember_found H g self _ _ _ _ outMember) by done.
  rewrite convertFoundMember_run. fold inMT outMT. rewrite Efp.
  unfold manualOrConvert. rewrite Ep, Ed, Ec. cbn [negb orb].
  destruct (isFastConversion H inMT outMT); cbn [negb]; [done|].
  gen_run. unfold extend, manualCall. by rewrite app_nil_r.
Qed.

Lemma copy_only_function_witness :
  let g := Sample.generatorOf [(Interned 40, Interned 41, Sample.convertItem)] None in
  doStructMember Sample.helpers g (fun _ _ => ret []) Sample.aBox Sample.bBox []
    (Sample.field "Item" [] Sample.aItem) Sample.start
  = Returned ([],
      mkGenState
        (manualCall g Sample.convertItem
           (memberArgs Sample.helpers g (Sample.field "Item" [] Sample.aItem)
              Sample.aItem Sample.bItem))
        [] ∅).
Proof.
  intros g.
  apply (copy_only_function_called_unless_fast_conversion Sample.helpers g
           (fun _ _ => ret []) Sample.aBox Sample.bBox []
           (Sample.field "Item" [] Sample.aItem) (Sample.field "Item" [] Sample.bItem)
           Sample.convertItem Sample.start); reflexivity.
Defined.

(** C3, counterexample.  The member [Item] has the types [a.Item] and
    [b.Item], which are not layout-equivalent and have no fast conversion,
    and a manual conversion function tagged copy-only: the generator calls
    the function. *)
Lemma copy_only_function_called_without_layout_equivalence :
  let g := Sample.generatorOf [(Interned 40, Interned 41, Sample.convertItem)] None in
  preexists g (Some Sample.aItem) (Some Sample.bItem) = Some Sample.convertItem
  /\ functionHasTag Sample.helpers g Sample.convertItem "copy-only" = true
  /\ canUseUnsafeConversion g Sample.aItem Sample.bItem = false
  /\ isFastConversion Sample.helpers Sample.aItem Sample.bItem = false
  /\ exists s',
       generateFor Sample.helpers g 2 Sample.aBox Sample.bBox Sample.start
       = Returned ([], s')
       /\ map template (sw s')
          = ["if err := $.function|ConversionGenerator_raw$(&in.$.name$, &out.$.name$); err != nil {\n";
             "return err\n"; "}\n"]
       /\ map arguments (sw s')
          = [MapArgs (<["function" := AType (Some Sample.convertItem)]>
                        (memberArgs Sample.helpers g (Sample.field "Item" [] Sample.aItem)
                           Sample.aItem Sample.bItem));
             NoArgs; NoArgs].
Proof.
  intros g. repeat split. eexists. split; [by compute|]. split; reflexivity.
Qed.

(** The other way round: [int] members with a copy-only manual conversion
    function have a fast conversion, and the function is skipped for a plain
    assignment. *)
Example copy_only_function_skipped_on_fast_conversion :
  let g := Sample.generatorOf [(Interned 2, Interned 2, Sample.convertCount)] None in
  exists s',
    generateFor Sample.helpers g 2 Sample.aCount Sample.bCount Sample.start
    = Returned ([], s')
    /\ map template (sw s') = ["out.$.name$ = in.$.name$\n"].
Proof. intros g. eexists. split; [by compute|]. reflexivity. Qed.

(** ** Field errors only accumulate *)

Lemma keeps_ret errors : keeps errors (ret errors).
Proof. intros s errors' s' [= <- <-]. exists []. by rewrite app_nil_r. Qed.

Lemma keeps_appendError errors err : keeps errors (ret (appendError errors err)).
Proof.
  intros s errors' s' [= <- <-]. destruct err as [e|]; simpl; [by exists [e]|].
  exists []. by rewrite app_nil_r.
Qed.

Lemma keeps_bind {A} errors (m : Gen A) (k : A -> Gen (list error)) :
  (forall a, keeps errors (k a)) -> keeps errors (bind m k).
Proof.
  intros Hk s errors' s'. unfold bind.
  destruct (m s) as [[a s1]| |]; [|done..]. apply Hk.
Qed.

Lemma keeps_forRange {A} (body : list error -> A -> Gen (list error)) (l : list A) :
  (forall acc x, keeps acc (body acc x)) ->
  forall acc, keeps acc (forRange body l acc).
Proof.
  intros Hb. induction l as [|x l IH]; intros acc; simpl.
  - apply keeps_ret.
  - intros s errors' s'. unfold bind.
    destruct (body acc x s) as [[acc1 s1]| |] eqn:E; [|done..].
    intros E'. apply Hb in E as (new1 & ->). apply IH in E' as (new2 & ->).
    exists (new1 ++ new2)%list. by rewrite app_assoc.
Qed.

(** An error a loop body appends for one element of the list is among the
    errors the loop returns. *)
Lemma forRange_records {A} (body : list error -> A -> Gen (list error))
    (l : list A) (x : A) (e : error) :
  (forall acc y, keeps acc (body acc y)) ->
  In x l ->
  (forall acc s acc' s', body acc x s = Returned (acc', s') -> acc' = (acc ++ [e])%list) ->
  forall acc s final s',
    forRange body l acc s = Returned (final, s') -> In e final.
Proof.
  intros Hb Hin Hx. induction l as [|y l IH]; [done|]. intros acc s final s'.
  simpl. unfold bind.
  destruct (body acc y s) as [[acc1 s1]| |] eqn:E; [|done..]. intros E'.
  destruct Hin as [->|Hin].
  - apply Hx in E as ->. apply (keeps_forRange body l Hb) in E' as (new & ->).
    apply in_or_app. left. apply in_or_app. right. by left.
  - eauto.
Qed.

Ltac keeps_step :=
  match goal with
  | |- keeps _ (bind _ _) => apply keeps_bind; intros ?
  | |- keeps ?e (ret ?e) => apply keeps_ret
  | |- keeps ?e (ret (appendError ?e _)) => apply keeps_appendError
  | |- keeps _ (if ?b then _ else _) => destruct b
  | |- keeps _ (match ?x with _ => _ end) => destruct x
  end.

Section Keeps.

Variable H : Helpers.
Variable g : Generator.
Variable self : Ty -> Ty -> Gen (list error).

Lemma keeps_convertMember inType outType inMT outMT inMember outMember args errors :
  keeps errors
    (convertMember H g self inType outType inMT outMT inMember outMember args errors).
Proof.
  unfold convertMember, internalOrExternal, callExternalConversionsHandlerForStructField.
  repeat keeps_step.
Qed.

Lemma keeps_doStructMember inType outType errors inMember :
  keeps errors (doStructMember H g self inType outType errors inMember).
Proof.
  unfold doStructMember, convertFoundMember, manualOrConvert.
  repeat first [ apply keeps_convertMember | keeps_step ].
Qed.

End Keeps.

(** C7, as the code has it.  For a member that is not opted out and that
    the target type lacks: without a [MissingFieldsHandler] the loop body
    logs one warning, writes nothing and leaves the errors as they are; with
    a handler it writes what the handler wrote and, when the handler returns
    an error, appends exactly that error.  For the pair, the private
    function is closed after the body whatever happened, and when the
    handler failed on a member of the source Struct, its error is among the
    errors of the body and the public wrapper is not written. *)
Theorem missing_member_warned_or_one_error
    (H : Helpers) (g : Generator) (n : nat) (inType outType : Ty) (inMember : Member) :
  optedOut H g (OfMember inMember) = false ->
  findMember H outType (M_Name inMember) = None ->
  (forall self errors s,
     doStructMember H g self inType outType errors inMember s
     = match MissingFieldsHandler (G_Options g) with
       | None =>
           Returned (errors,
             mkGenState (sw s)
               (klog s
                ++ [mkLogEntry Warning
                      "%s.%s requires manual conversion: does not exist in peer-type %s"
                      [OName (T_Name inType); OString (M_Name inMember);
                       OName (T_Name outType)]])
               (peerTypes s))
       | Some handler =>
           let '(code, err) :=
             handler (NewNamedVariable "in" (Some inType))
                     (NewNamedVariable "out" (Some outType)) inMember in
           Returned (appendError errors err,
             mkGenState (sw s ++ code) (klog s) (peerTypes s))
       end)
  /\ forall s,
       match generateFor H g (S (S n)) inType outType
               (extend s (privateHeader H g inType outType) []) with
       | Returned (errors, s1) =>
           (exists s2,
              generateConversion H g (S (S n)) inType outType s = Returned (tt, s2)
              /\ sw s2 =
                   (sw s1 ++ privateFooter
                    ++ (if publicEligible H g inType outType errors
                        then publicWrapperText H g inType outType else []))%list)
           /\ forall handler code e,
                MissingFieldsHandler (G_Options g) = Some handler ->
                handler (NewNamedVariable "in" (Some inType))
                        (NewNamedVariable "out" (Some outType)) inMember
                = (code, Some e) ->
                T_Kind inType = Struct ->
                In inMember (T_Members inType) ->
                In e errors /\ publicEligible H g inType outType errors = false
       | NilDereference =>
           generateConversion H g (S (S n)) inType outType s = NilDereference
       | OutOfFuel => False
       end.
Proof.
  intros Eo Ef.
  assert (forall self errors s,
     doStructMember H g self inType outType errors inMember s
     = match MissingFieldsHandler (G_Options g) with
       | None =>
           Returned (errors,
             mkGenState (sw s)
               (klog s
                ++ [mkLogEntry Warning
                      "%s.%s requires manual conversion: does not exist in peer-type %s"
                      [OName (T_Name inType); OString (M_Name inMember);
                       OName (T_Name outType)]])
               (peerTypes s))
       | Some handler =>
           let '(code, err) :=
             handler (NewNamedVariable "in" (Some inType))
                     (NewNamedVariable "out" (Some outType)) inMember in
           Returned (appendError errors err,
             mkGenState (sw s ++ code) (klog s) (peerTypes s))
       end) as Hmember.
  { intros self errors s. unfold doStructMember. rewrite Eo, Ef.
    destruct (MissingFieldsHandler (G_Options g)) as [handler|].
    - destruct (handler _ _ _) as [code err]. gen_run.
      unfold extend, appendError. by rewrite app_nil_r.
    - gen_run. unfold extend. by rewrite app_nil_r. }
  split; [exact Hmember|]. intros s.
  rewrite generateConversion_run.
  pose proof (steady_generateFor H g n inType outType
                (extend s (privateHeader H g inType outType) [])) as St.
  destruct (generateFor _ _ _ _ _ _) as [[errors s1]| |] eqn:Eg; [|done..].
  split.
  - eexists. split; [reflexivity|]. by unfold extend.
  - intros h code e Eh Ehe Ek Hin.
    assert (In e errors) as Hine.
    { cbn [generateFor] in Eg. unfold selectHandler, V5Infof in Eg. rewrite Ek in Eg.
      cbn [handler] in Eg. rewrite bind_logf in Eg. unfold doStruct in Eg.
      eapply (forRange_records _ _ inMember e); [| exact Hin | | exact Eg].
      - intros acc y. apply keeps_doStructMember.
      - intros acc s0 acc' s'. rewrite Hmember, Eh, Ehe. by intros [= <- _]. }
    split; [done|]. unfold publicEligible.
    rewrite (bool_decide_eq_false_2 (errors = [])); [by rewrite andb_false_r|].
    intros ->. done.
Qed.

Lemma missing_member_witness :
  (forall s,
     doStructMember Sample.helpers (Sample.generatorOf [] None) (fun _ _ => ret [])
       Sample.aFoo Sample.bFoo [] (Sample.field "Foo" [] Sample.stringT) s
     = Returned ([],
         mkGenState (sw s)
           (klog s
            ++ [mkLogEntry Warning
                  "%s.%s requires manual conversion: does not exist in peer-type %s"
                  [OName (T_Name Sample.aFoo); OString "Foo"; OName (T_Name Sample.bFoo)]])
           (peerTypes s)))
  /\ (forall s,
        doStructMember Sample.helpers (Sample.generatorOf [] (Some Sample.failOnMissing))
          (fun _ _ => ret []) Sample.aFoo Sample.bFoo []
          (Sample.field "Foo" [] Sample.stringT) s
        = Returned (["field Foo requires manual conversion"],
            mkGenState
              (sw s
               ++ [mkSnippet
                     "// WARNING: in.Foo requires manual conversion: does not exist in peer-type\n"
                     NoArgs])
              (klog s) (peerTypes s))).
Proof.
  split; intros s.
  - apply (missing_member_warned_or_one_error Sample.helpers (Sample.generatorOf [] None)
             0 Sample.aFoo Sample.bFoo (Sample.field "Foo" [] Sample.stringT)
             eq_refl eq_refl).
  - apply (missing_member_warned_or_one_error Sample.helpers
             (Sample.generatorOf [] (Some Sample.failOnMissing))
             0 Sample.aFoo Sample.bFoo (Sample.field "Foo" [] Sample.stringT)
             eq_refl eq_refl).
Defined.

(** C7, counterexample.  The member [Foo] of [a.Foo] is opted out and
    [b.Foo] has no member of that name.  Without a handler no warning is
    logged for it; with a handler that fails on every missing member no
    error is recorded and the public wrapper is written. *)
Lemma opted_out_missing_member_neither_warned_nor_error :
  findMember Sample.helpers Sample.bFoo "Foo" = None
  /\ (exists s',
        generateFor Sample.helpers (Sample.generatorOf [] None) 2
          Sample.aFooOptedOut Sample.bFoo Sample.start
        = Returned ([], s')
        /\ map severity (klog s') = [InfoV5])
  /\ exists s',
       generateConversion Sample.helpers (Sample.generatorOf [] (Some Sample.failOnMissing)) 2
         Sample.aFooOptedOut Sample.bFoo Sample.start
       = Returned (tt, s')
       /\ klog s' = [mkLogEntry InfoV5 "generating %v -> %v"
                       [OType (Some Sample.aFooOptedOut); OType (Some Sample.bFoo)]]
       /\ exists code,
            sw s' = (code ++ publicWrapperText Sample.helpers
                       (Sample.generatorOf [] (Some Sample.failOnMissing))
                       Sample.aFooOptedOut Sample.bFoo)%list.
Proof.
  split; [reflexivity|]. split.
  - eexists. split; [by compute|]. reflexivity.
  - eexists. split; [by compute|]. split; [reflexivity|].
    eexists (_ :: _ :: _ :: _ :: _ :: _ :: _ :: _ :: _ :: _ :: _ :: _ :: []).
    reflexivity.
Qed.

(** ** The arguments of the snippets do not steer the generator *)

Lemma sameText_refl s : sameText s s.
Proof. by repeat split. Qed.

Lemma sameText_extend s1 s2 c1 c2 e :
  sameText s1 s2 -> map template c1 = map template c2 ->
  sameText (extend s1 c1 e) (extend s2 c2 e).
Proof.
  intros (Hsw & Hlog & Hpeer) Hc. repeat split; cbn.
  - rewrite !map_app. congruence.
  - congruence.
  - congruence.
Qed.

Lemma alike_ret {A} (a : A) : alike (ret a) (ret a).
Proof. intros s1 s2 Hs. by split. Qed.

Lemma alike_Do fmt a1 a2 : alike (Do fmt a1) (Do fmt a2).
Proof. intros s1 s2 Hs. rewrite !Do_run. split; [done|]. by apply sameText_extend. Qed.

Lemma alike_written code : alike (written code) (written code).
Proof. intros s1 s2 Hs. rewrite !written_run. split; [done|]. by apply sameText_extend. Qed.

Lemma alike_logf lvl fmt ops : alike (logf lvl fmt ops) (logf lvl fmt ops).
Proof. intros s1 s2 Hs. rewrite !logf_run. split; [done|]. by apply sameText_extend. Qed.

Lemma alike_deref {A} (p : option A) : alike (deref p) (deref p).
Proof. destruct p; simpl; [apply alike_ret|]. by intros s1 s2 _. Qed.

Lemma alike_bind {A B} (m1 m2 : Gen A) (k1 k2 : A -> Gen B) :
  alike m1 m2 -> (forall a, alike (k1 a) (k2 a)) -> alike (bind m1 k1) (bind m2 k2).
Proof.
  intros Hm Hk s1 s2 Hs. unfold bind. specialize (Hm s1 s2 Hs).
  destruct (m1 s1) as [[a1 s1']| |], (m2 s2) as [[a2 s2']| |]; try done.
  destruct Hm as [-> Hs']. by apply Hk.
Qed.

Ltac alike_step :=
  match goal with
  | |- alike (bind _ _) (bind _ _) => apply alike_bind; [|intros ?]
  | |- alike (ret _) (ret _) => apply alike_ret
  | |- alike (Do _ _) (Do _ _) => apply alike_Do
  | |- alike (written _) (written _) => apply alike_written
  | |- alike (logf _ _ _) (logf _ _ _) => apply alike_logf
  | |- alike (V5Infof _ _) (V5Infof _ _) => apply alike_logf
  | |- alike (Warningf _ _) (Warningf _ _) => apply alike_logf
  | |- alike (deref _) (deref _) => apply alike_deref
  | |- alike (if ?b then _ else _) (if ?b then _ else _) => destruct b
  | |- alike (match ?x with _ => _ end) (match ?x with _ => _ end) => destruct x
  end.

Section Alike.

Variable H : Helpers.
Variable g : Generator.
Variable self : Ty -> Ty -> Gen (list error).

Lemma alike_convertibleOnlyWithinPackage inType outType :
  alike (convertibleOnlyWithinPackage H g inType outType)
        (convertibleOnlyWithinPackage H g inType outType).
Proof. unfold convertibleOnlyWithinPackage. repeat alike_step. Qed.

Lemma alike_internalOrExternal inType outType inMT outMT inMember outMember
    args1 args2 errors :
  alike (internalOrExternal H g inType outType inMT outMT inMember outMember args1 errors)
        (internalOrExternal H g inType outType inMT outMT inMember outMember args2 errors).
Proof.
  unfold internalOrExternal, callExternalConversionsHandlerForStructField.
  apply alike_bind; [apply alike_convertibleOnlyWithinPackage|intros ?].
  repeat alike_step.
Qed.

Lemma alike_convertMember inType outType inMT outMT inMember outMember
    args1 args2 errors :
  isContainer (T_Kind inMT) = false ->
  alike (convertMember H g self inType outType inMT outMT inMember outMember args1 errors)
        (convertMember H g self inType outType inMT outMT inMember outMember args2 errors).
Proof.
  intros K. unfold convertMember.
  destruct (negb _); [repeat alike_step|].
  destruct (T_Kind inMT); try discriminate K;
    repeat first [ apply alike_internalOrExternal | alike_step ].
Qed.

Lemma alike_manualOrConvert inType outType inMT outMT inMember outMember
    args1 args2 errors :
  isContainer (T_Kind inMT) = false ->
  alike (manualOrConvert H g self inType outType inMT outMT inMember outMember args1 errors)
        (manualOrConvert H g self inType outType inMT outMT inMember outMember args2 errors).
Proof.
  intros K. unfold manualOrConvert.
  repeat first [ apply alike_convertMember; exact K | alike_step ].
Qed.

(** Switching unsafe conversions off changes nothing past the fast path. *)
Lemma manualOrConvert_withoutUnsafe inType outType inMT outMT inMember outMember
    args errors :
  manualOrConvert H (withoutUnsafe g) self inType outType inMT outMT inMember outMember
    args errors
  = manualOrConvert H g self inType outType inMT outMT inMember outMember args errors.
Proof. reflexivity. Qed.

End Alike.

(** C10.  For a member that is converted and whose types the
    unsafe-conversion check approves: a fast-path template exists for the
    kinds Pointer, Map and Slice and for no other; when unsafe conversions
    are enabled and the member's kind has a template, the loop body writes
    that one snippet and nothing else; when the kind has none, the loop body
    runs the manual conversion function and the per-kind logic, and ends as
    it does with unsafe conversions switched off, up to the [Pointer] entry
    of the snippets' arguments. *)
Theorem unsafe_fast_path_only_for_pointer_map_slice
    (H : Helpers) (g : Generator) (self : Ty -> Ty -> Gen (list error))
    (inType outType : Ty) (errors : list error) (inMember outMember : Member)
    (s : GenState) :
  optedOut H g (OfMember inMember) = false ->
  findMember H outType (M_Name inMember) = Some outMember ->
  let inMT := topLevelCopy H CopiedIn (M_Type inMember) in
  let outMT := topLevelCopy H CopiedOut (M_Type outMember) in
  canUseUnsafeConversion g inMT outMT = true ->
  (forall k, is_Some (unsafeTemplate k) <-> k = Pointer \/ k = Map \/ k = Slice)
  /\ (forall template,
        NoUnsafeConversions (G_Options g) = false ->
        unsafeTemplate (T_Kind inMT) = Some template ->
        doStructMember H g self inType outType errors inMember s
        = Returned (errors,
            mkGenState
              (sw s ++ [mkSnippet template (MapArgs (memberArgs H g inMember inMT outMT))])
              (klog s) (peerTypes s)))
  /\ (unsafeTemplate (T_Kind inMT) = None ->
      doStructMember H g self inType outType errors inMember s
      = manualOrConvert H g self inType outType inMT outMT inMember outMember
          (memberArgs H g inMember inMT outMT) errors s
      /\ sameOutcome
           (doStructMember H g self inType outType errors inMember s)
           (doStructMember H (withoutUnsafe g) self inType outType errors inMember s)).
Proof.
  intros Eo Ef inMT outMT Eapproved.
  split; [apply unsafeTemplate_Some|]. split.
  - intros template Eon Et.
    rewrite (doStructMember_found H g self _ _ _ _ outMember) by done.
    rewrite convertFoundMember_run. fold inMT outMT.
    unfold fastPath, useUnsafeConversion. rewrite Eon, Eapproved, Et. cbn [negb andb].
    unfold extend. by rewrite app_nil_r.
  - intros Et.
    assert (doStructMember H g self inType outType errors inMember s
            = manualOrConvert H g self inType outType inMT outMT inMember outMember
                (memberArgs H g inMember inMT outMT) errors s) as E.
    { rewrite (doStructMember_found H g self _ _ _ _ outMember) by done.
      rewrite convertFoundMember_run. fold inMT outMT.
      unfold fastPath. rewrite Et. by destruct (useUnsafeConversion g inMT outMT). }
    split; [exact E|]. rewrite E.
    rewrite (doStructMember_found H (withoutUnsafe g) self _ _ _ _ outMember) by done.
    rewrite convertFoundMember_run. fold inMT outMT.
    replace (fastPath (withoutUnsafe g) inMT outMT) with (@None string) by reflexivity.
    rewrite manualOrConvert_withoutUnsafe.
    apply alike_manualOrConvert; [by apply unsafeTemplate_None|apply sameText_refl].
Qed.

Lemma unsafe_fast_path_witness :
  let g := Sample.generatorOf [] None in
  doStructMember Sample.helpers g (fun _ _ => ret []) Sample.aTags Sample.bTags []
    (Sample.field "Names" [] Sample.sliceOfString) Sample.start
  = Returned ([],
      mkGenState
        [mkSnippet
           ("out.$.name$ = *(*$.outType|" ++ rawNamer ++ "$)($.Pointer|" ++ rawNamer
              ++ "$(&in.$.name$))\n")
           (MapArgs (memberArgs Sample.helpers g (Sample.field "Names" [] Sample.sliceOfString)
                       Sample.sliceOfString Sample.sliceOfString))]
        [] ∅).
Proof.
  intros g.
  apply (unsafe_fast_path_only_for_pointer_map_slice Sample.helpers g (fun _ _ => ret [])
           Sample.aTags Sample.bTags [] (Sample.field "Names" [] Sample.sliceOfString)
           (Sample.field "Names" [] Sample.sliceOfString) Sample.start
           eq_refl eq_refl eq_refl); reflexivity.
Defined.

(** * Further properties *)

(** ** The peer cache *)

Section Cache.

Variable H : Helpers.
Variable g : Generator.

(** [GetPeerTypeFor] always returns; it writes no code, keeps every entry of
    the cache as it is, and leaves its answer in the cache under the simple
    name of the type. *)
Theorem GetPeerTypeFor_keeps_cache (context : Context) (t : Ty) (s : GenState) :
  exists (peer : option Ty) (s' : GenState),
    GetPeerTypeFor H g context t s = Returned (peer, s')
    /\ sw s' = sw s
    /\ peerTypes s' !! N_Name (T_Name t) = Some peer
    /\ forall name cached,
         peerTypes s !! name = Some cached -> peerTypes s' !! name = Some cached.
Proof.
  destruct (peerTypes s !! N_Name (T_Name t)) as [peer|] eqn:E.
  - exists peer, s. split; [by apply GetPeerTypeFor_hit|]. by repeat split.
  - destruct (GetPeerTypeFor_miss H g context t s E) as (entries & ->).
    eexists _, _. split; [reflexivity|]. cbn [sw peerTypes]. split; [done|].
    split; [apply lookup_insert_eq|]. intros name cached Hc.
    rewrite lookup_insert_ne; [done|]. intros <-. congruence.
Qed.

(** A steady computation leaves the cache alone. *)
Lemma steady_peerTypes {A} (m : Gen A) s a s' :
  steady m -> m s = Returned (a, s') -> peerTypes s' = peerTypes s.
Proof.
  intros St E. specialize (St s). rewrite E in St. by destruct St as (c & e & ->).
Qed.

(** The shape of what [generateConversion] writes. *)
Lemma generateConversion_shape n inType outType s :
  match generateConversion H g (S (S n)) inType outType s with
  | Returned (_, s2) =>
      exists (body wrapper : list Snippet) (entries : list LogEntry),
        s2 = extend s
               (privateHeader H g inType outType ++ body ++ privateFooter ++ wrapper)
               entries
        /\ (wrapper = [] \/ wrapper = publicWrapperText H g inType outType)
  | NilDereference => True
  | OutOfFuel => False
  end.
Proof.
  rewrite generateConversion_run.
  pose proof (steady_generateFor H g n inType outType
                (extend s (privateHeader H g inType outType) [])) as St.
  destruct (generateFor _ _ _ _ _ _) as [[errors s1]| |]; [|done..].
  destruct St as (body & entries & ->). rewrite !extend_extend.
  eexists body, _, _. split.
  - by rewrite <- ?app_assoc.
  - destruct (publicEligible H g inType outType errors); auto.
Qed.

(** When [Filter] has accepted a type, the peer it found is in the cache,
    and [GenerateType] on that type, whatever the universe has become,
    searches nothing: it logs, writes the private function from the type to
    its peer, with or without its public wrapper, then the one from the peer
    to the type, and leaves the cache as it is. *)
Theorem Filter_then_GenerateType (context : Context) (t : Ty) (s s1 : GenState) :
  Filter H g context t s = Returned (true, s1) ->
  exists peer : Ty,
    peerTypes s1 !! N_Name (T_Name t) = Some (Some peer)
    /\ sw s1 = sw s
    /\ forall (n : nat) (context' : Context),
         match GenerateType H g (S (S n)) context' t s1 with
         | Returned (_, s2) =>
             exists (body1 wrapper1 body2 wrapper2 : list Snippet),
               sw s2 =
                 (sw s1
                  ++ privateHeader H g t peer ++ body1 ++ privateFooter ++ wrapper1
                  ++ privateHeader H g peer t ++ body2 ++ privateFooter ++ wrapper2)%list
               /\ (wrapper1 = [] \/ wrapper1 = publicWrapperText H g t peer)
               /\ (wrapper2 = [] \/ wrapper2 = publicWrapperText H g peer t)
               /\ peerTypes s2 = peerTypes s1
         | NilDereference => True
         | OutOfFuel => False
         end.
Proof.
  unfold Filter. intros E.
  destruct (GetPeerTypeFor_keeps_cache context t s) as (peer & s0 & Eg & Esw & Ec & _).
  rewrite (bind_run _ _ _ _ _ Eg) in E.
  destruct peer as [peer|]; [|discriminate E].
  pose proof (steady_convertibleOnlyWithinPackage H g (Some t) (Some peer) s0) as St.
  rewrite E in St. destruct St as (code & entries & ->).
  assert (code = []) as ->.
  { revert E. unfold convertibleOnlyWithinPackage. cbn [deref]. rewrite bind_ret.
    destruct (bool_decide _); cbn [deref]; rewrite bind_ret.
    all: repeat match goal with
                | |- context [if ?b then _ else _] => destruct b
                end.
    all: gen_run; cbn [deref]; rewrite ?bind_ret, ?ret_run.
    all: intros [= _ Es]; apply (f_equal sw) in Es; cbn in Es.
    all: rewrite ?app_nil_r in Es.
    all: try (by apply (app_inv_head (sw s0)); rewrite app_nil_r).
    all: by apply (app_inv_head (sw s0)) in Es. }
  exists peer. split; [done|]. split; [cbn; by rewrite app_nil_r|].
  intros n context'. unfold GenerateType, V5Infof. rewrite bind_logf.
  erewrite bind_run; [|apply GetPeerTypeFor_hit; exact Ec].
  cbn [deref]. rewrite bind_ret.
  set (s1 := extend (extend s0 [] entries) [] _).
  pose proof (generateConversion_shape n t peer s1) as Sh1.
  unfold bind at 1.
  destruct (generateConversion H g (S (S n)) t peer s1) as [[[] s2]| |]; [|done..].
  destruct Sh1 as (body1 & wrapper1 & entries1 & -> & Hw1).
  pose proof (generateConversion_shape n peer t
                (extend s1 (privateHeader H g t peer ++ body1 ++ privateFooter ++ wrapper1)
                   entries1)) as Sh2.
  destruct (generateConversion H g (S (S n)) peer t _) as [[[] s3]| |]; [|done..].
  destruct Sh2 as (body2 & wrapper2 & entries2 & -> & Hw2).
  exists body1, wrapper1, body2, wrapper2. split; [|by repeat split].
  subst s1. unfold extend; cbn [sw peerTypes]. rewrite ?app_nil_r.
  by rewrite <- ?app_assoc.
Qed.

End Cache.
